(** * The S3 output plugin of cowrie ([src/cowrie/output/s3.py])

    A shallow embedding of [Output.start], [Output.write],
    [Output._object_exists_remote] and [Output.upload], together with the
    library functions they call ([hashlib.sha256], [json.dump] / [json.dumps],
    [repr]), and the properties of the dispatch layer and of the
    deduplicating upload state machine. *)

From Stdlib Require Import ZArith List String Ascii Bool Lia.
From Stdlib.Strings Require Import Byte.
From stdpp Require Import gmap strings list pretty.
Import ListNotations.

Local Open Scope Z_scope.
Set Warnings "-register-all".

(** ** [hashlib.sha256]: SHA-256 over a byte string (FIPS 180-4) *)

Module Sha256.

Definition mask32 : Z := 0xffffffff.

(** 32-bit addition with wrap-around. *)
Definition add32 (x y : Z) : Z := Z.land (x + y) mask32.

Definition rotr (n x : Z) : Z :=
  Z.lor (Z.shiftr x n) (Z.land (Z.shiftl x (32 - n)) mask32).

Definition not32 (x : Z) : Z := Z.lxor x mask32.

Definition Ch (x y z : Z) : Z := Z.lxor (Z.land x y) (Z.land (not32 x) z).
Definition Maj (x y z : Z) : Z :=
  Z.lxor (Z.lxor (Z.land x y) (Z.land x z)) (Z.land y z).
Definition bsig0 (x : Z) : Z := Z.lxor (Z.lxor (rotr 2 x) (rotr 13 x)) (rotr 22 x).
Definition bsig1 (x : Z) : Z := Z.lxor (Z.lxor (rotr 6 x) (rotr 11 x)) (rotr 25 x).
Definition ssig0 (x : Z) : Z := Z.lxor (Z.lxor (rotr 7 x) (rotr 18 x)) (Z.shiftr x 3).
Definition ssig1 (x : Z) : Z := Z.lxor (Z.lxor (rotr 17 x) (rotr 19 x)) (Z.shiftr x 10).

(** Primality by trial division, and the first 64 primes (2 to 311). *)
Definition is_prime (n : Z) : bool :=
  (2 <=? n) && forallb (fun d => negb (n mod Z.of_nat d =? 0)) (seq 2 (Z.to_nat n - 2)).

Definition primes : list Z :=
  List.filter is_prime (map Z.of_nat (seq 2 310)).

(** Integer cube root, found bit by bit from the top. *)
Fixpoint cbrt_bits (bits : nat) (n r : Z) : Z :=
  match bits with
  | O => r
  | S b =>
      let c := r + 2 ^ Z.of_nat b in
      cbrt_bits b n (if c * c * c <=? n then c else r)
  end.

Definition cbrt (n : Z) : Z := cbrt_bits 40 n 0.

(** The round constants: the first 32 bits of the fractional part of the
    cube root of each of the first 64 primes. *)
Definition K : list Z :=
  Eval vm_compute in map (fun p => Z.land (cbrt (p * 2 ^ 96)) mask32) primes.

(** The initial hash value: the same of the square roots of the first 8. *)
Definition H0 : list Z :=
  Eval vm_compute in map (fun p => Z.land (Z.sqrt (p * 2 ^ 64)) mask32) (firstn 8 primes).

(** Big-endian encoding of [x] on [n] bytes, as a list of byte values. *)
Fixpoint be_bytes (n : nat) (x : Z) : list Z :=
  match n with
  | O => []
  | S n' => Z.land (Z.shiftr x (8 * Z.of_nat n')) 0xff :: be_bytes n' x
  end.

(** Padding: a [0x80] byte, zeros up to 56 modulo 64, then the bit length
    on 8 bytes. *)
Definition pad (msg : list Z) : list Z :=
  let len := Z.of_nat (length msg) in
  let zeros := Z.to_nat ((55 - len) mod 64) in
  msg ++ 0x80 :: repeat 0 zeros ++ be_bytes 8 (8 * len).

Fixpoint words_of_bytes (fuel : nat) (bs : list Z) : list Z :=
  match fuel, bs with
  | S fuel', b0 :: b1 :: b2 :: b3 :: rest =>
      (Z.shiftl b0 24 + Z.shiftl b1 16 + Z.shiftl b2 8 + b3)
        :: words_of_bytes fuel' rest
  | _, _ => []
  end.

(** The message schedule, kept most recent word first: the head of [w] is
    W(t-1). *)
Fixpoint schedule (n : nat) (w : list Z) : list Z :=
  match n with
  | O => w
  | S n' =>
      let wt := add32 (add32 (ssig1 (nth 1 w 0)) (nth 6 w 0))
                      (add32 (ssig0 (nth 14 w 0)) (nth 15 w 0)) in
      schedule n' (wt :: w)
  end.

Record regs := Regs { ra : Z; rb : Z; rc : Z; rd : Z; re : Z; rf : Z; rg : Z; rh : Z }.

Definition round (r : regs) (kw : Z * Z) : regs :=
  let t1 := add32 (add32 (add32 (rh r) (bsig1 (re r)))
                         (add32 (Ch (re r) (rf r) (rg r)) (fst kw))) (snd kw) in
  let t2 := add32 (bsig0 (ra r)) (Maj (ra r) (rb r) (rc r)) in
  Regs (add32 t1 t2) (ra r) (rb r) (rc r) (add32 (rd r) t1) (re r) (rf r) (rg r).

Definition regs_of (h : list Z) : regs :=
  Regs (nth 0 h 0) (nth 1 h 0) (nth 2 h 0) (nth 3 h 0)
       (nth 4 h 0) (nth 5 h 0) (nth 6 h 0) (nth 7 h 0).

Definition compress (h : list Z) (block : list Z) : list Z :=
  let w := rev (schedule 48 (rev block)) in
  let r0 := regs_of h in
  let r := fold_left round (combine K w) r0 in
  [ add32 (ra r0) (ra r); add32 (rb r0) (rb r); add32 (rc r0) (rc r); add32 (rd r0) (rd r);
    add32 (re r0) (re r); add32 (rf r0) (rf r); add32 (rg r0) (rg r); add32 (rh r0) (rh r) ].

Fixpoint blocks (fuel : nat) (h : list Z) (ws : list Z) : list Z :=
  match fuel, ws with
  | S fuel', _ :: _ => blocks fuel' (compress h (firstn 16 ws)) (skipn 16 ws)
  | _, _ => h
  end.

Definition digest (msg : list Byte.byte) : list Z :=
  let bs := pad (map (fun b => Z.of_N (Byte.to_N b)) msg) in
  let ws := words_of_bytes (length bs) bs in
  blocks (length ws) H0 ws.

Definition hex_digit (d : Z) : ascii :=
  nth (Z.to_nat d) (list_ascii_of_string "0123456789abcdef") "0"%char.

Fixpoint hex_of (digits : nat) (x : Z) : string :=
  match digits with
  | O => EmptyString
  | S n' => String (hex_digit (Z.land (Z.shiftr x (4 * Z.of_nat n')) 0xf)) (hex_of n' x)
  end.

(** [hashlib.sha256(msg).hexdigest()] *)
Definition hexdigest (msg : list Byte.byte) : string :=
  String.concat "" (map (hex_of 8) (digest msg)).

End Sha256.

(** ** Python values

    The records handed to the plugin are Python dicts.  A dict keeps its
    insertion order, which the JSON text depends on, so a dict is an
    association list; its keys are strings, as the keys of cowrie's event
    dicts are.  A [str] is a Rocq [string] whose characters are the code
    points below 256.  [PObj] stands for a value of a type the JSON encoder
    has no rule for ([bytes], [set], [datetime], ...): it carries its type
    name, its [repr] and its truth value.  Floats and cyclic values are
    outside the model. *)

Inductive pyval : Type :=
| PNone
| PBool (b : bool)
| PInt (n : Z)
| PStr (s : string)
| PList (items : list pyval)
| PDict (items : list (string * pyval))
| PObj (tyname : string) (text : string) (truthy : bool).

Abbreviation pydict := (list (string * pyval)).

Inductive exn : Type :=
| KeyError (key : string)
| TypeError (msg : string)
| FileNotFoundError (path : string)
| ClientError (code : string)
| OtherError (name : string).

(** ** Induction over Python values *)

Section PyvalInd.

Variable P : pyval -> Prop.
Hypothesis HNone : P PNone.
Hypothesis HBool : forall b, P (PBool b).
Hypothesis HInt : forall n, P (PInt n).
Hypothesis HStr : forall s, P (PStr s).
Hypothesis HList : forall items, Forall P items -> P (PList items).
Hypothesis HDict : forall items, Forall (fun kv => P (snd kv)) items -> P (PDict items).
Hypothesis HObj : forall t r b, P (PObj t r b).

Fixpoint pyval_nested_ind (v : pyval) : P v :=
  match v with
  | PNone => HNone
  | PBool b => HBool b
  | PInt n => HInt n
  | PStr s => HStr s
  | PList items =>
      HList items
        ((fix all (l : list pyval) : Forall P l :=
            match l with
            | [] => @List.Forall_nil _ P
            | x :: l' => @List.Forall_cons _ P x l' (pyval_nested_ind x) (all l')
            end) items)
  | PDict items =>
      HDict items
        ((fix all (l : pydict) : Forall (fun kv => P (snd kv)) l :=
            match l with
            | [] => @List.Forall_nil _ _
            | kv :: l' => @List.Forall_cons _ _ kv l' (pyval_nested_ind (snd kv)) (all l')
            end) items)
  | PObj t r b => HObj t r b
  end.

End PyvalInd.

Module Py.

(** [bool(v)] *)
Definition truthy (v : pyval) : bool :=
  match v with
  | PNone => false
  | PBool b => b
  | PInt n => negb (n =? 0)
  | PStr s => negb (String.eqb s "")
  | PList items => match items with [] => false | _ => true end
  | PDict items => match items with [] => false | _ => true end
  | PObj _ _ t => t
  end.

(** [type(v).__name__] *)
Definition type_name (v : pyval) : string :=
  match v with
  | PNone => "NoneType"
  | PBool _ => "bool"
  | PInt _ => "int"
  | PStr _ => "str"
  | PList _ => "list"
  | PDict _ => "dict"
  | PObj t _ _ => t
  end.

Definition code (c : ascii) : Z := Z.of_N (N_of_ascii c).

Definition chr (c : ascii) : string := String c EmptyString.

(** The double-quote character. *)
Definition dquote : ascii := ascii_of_nat 34.

Fixpoint contains (c : ascii) (s : string) : bool :=
  match s with
  | EmptyString => false
  | String d s' => if Ascii.eqb c d then true else contains c s'
  end.

(** [str.isprintable] on the code points below 256. *)
Definition printable (n : Z) : bool :=
  ((32 <=? n) && (n <? 127)) || ((161 <=? n) && negb (n =? 173)).

Definition repr_char (quote : ascii) (c : ascii) : string :=
  let n := code c in
  if Ascii.eqb c quote || (n =? 92) then String "\" (chr c)
  else if n =? 9 then "\t"
  else if n =? 10 then "\n"
  else if n =? 13 then "\r"
  else if printable n then chr c
  else "\x" +:+ Sha256.hex_of 2 n.

Fixpoint repr_chars (quote : ascii) (s : string) : string :=
  match s with
  | EmptyString => EmptyString
  | String c s' => repr_char quote c +:+ repr_chars quote s'
  end.

(** [repr] of a [str]: single quotes, unless the text holds a single quote
    and no double quote. *)
Definition repr_str (s : string) : string :=
  let quote : ascii :=
    if contains "'" s && negb (contains dquote s) then dquote else "'"%char in
  chr quote +:+ repr_chars quote s +:+ chr quote.

Definition join (sep : string) (parts : list string) : string :=
  String.concat sep parts.

(** [repr(v)] *)
Fixpoint repr (v : pyval) : string :=
  match v with
  | PNone => "None"
  | PBool true => "True"
  | PBool false => "False"
  | PInt n => pretty n
  | PStr s => repr_str s
  | PList items => "[" +:+ join ", " (map repr items) +:+ "]"
  | PDict items =>
      "{" +:+ join ", " (map (fun kv => repr_str (fst kv) +:+ ": " +:+ repr (snd kv)) items)
          +:+ "}"
  | PObj _ text _ => text
  end.

(** [str(v)], as an f-string formats it. *)
Definition str (v : pyval) : string :=
  match v with
  | PStr s => s
  | _ => repr v
  end.

(** [prefix + v] for a [str] on the left. *)
Definition concat (prefix : string) (v : pyval) : exn + string :=
  match v with
  | PStr s => inr (prefix +:+ s)
  | _ => inl (TypeError ("can only concatenate str (not " +:+ chr dquote +:+ type_name v
                        +:+ chr dquote +:+ ") to str"))
  end.

(** [key in d] *)
Fixpoint has_key (key : string) (d : pydict) : bool :=
  match d with
  | [] => false
  | (k, _) :: d' => if String.eqb k key then true else has_key key d'
  end.

(** [d[key]] *)
Fixpoint getitem (key : string) (d : pydict) : exn + pyval :=
  match d with
  | [] => inl (KeyError key)
  | (k, v) :: d' => if String.eqb k key then inr v else getitem key d'
  end.

(** [del d[key]] *)
Fixpoint delitem (key : string) (d : pydict) : exn + pydict :=
  match d with
  | [] => inl (KeyError key)
  | (k, v) :: d' =>
      if String.eqb k key then inr d'
      else match delitem key d' with
           | inl e => inl e
           | inr d'' => inr ((k, v) :: d'')
           end
  end.

(** [list(d.keys())] *)
Definition keys (d : pydict) : list string := map fst d.

(** A dict holds each key once. *)
Definition wf (d : pydict) : Prop := NoDup (keys d).

End Py.

(** ** [json]: the encoder with [ensure_ascii=True] *)

Module Json.

(** One character of a string literal: the two-character escapes, the
    printable ASCII characters as they are, everything else as a
    [\uXXXX] escape. *)
Definition escape_char (c : ascii) : string :=
  let n := Py.code c in
  if n =? 34 then "\" +:+ Py.chr Py.dquote
  else if n =? 92 then "\\"
  else if n =? 10 then "\n"
  else if n =? 13 then "\r"
  else if n =? 9 then "\t"
  else if n =? 8 then "\b"
  else if n =? 12 then "\f"
  else if (32 <=? n) && (n <=? 126) then Py.chr c
  else "\u" +:+ Sha256.hex_of 4 n.

Fixpoint escape (s : string) : string :=
  match s with
  | EmptyString => EmptyString
  | String c s' => escape_char c +:+ escape s'
  end.

Definition encode_string (s : string) : string :=
  Py.chr Py.dquote +:+ escape s +:+ Py.chr Py.dquote.

(** The loop over the elements of a non-empty list: [buf] is the opening
    bracket before the first element and the item separator before the
    others. *)
Definition encode_list_items (enc : pyval -> string * option exn) (isep : string)
  : string -> list pyval -> string * option exn :=
  fix loop (buf : string) (l : list pyval) {struct l} : string * option exn :=
    match l with
    | [] => ("]", None)
    | x :: l' =>
        match enc x with
        | (s, Some e) => (buf +:+ s, Some e)
        | (s, None) => let r := loop isep l' in (buf +:+ s +:+ fst r, snd r)
        end
    end.

(** The loop over the items of a non-empty dict. *)
Definition encode_dict_items (enc : pyval -> string * option exn) (isep ksep : string)
  : string -> pydict -> string * option exn :=
  fix loop (buf : string) (l : pydict) {struct l} : string * option exn :=
    match l with
    | [] => ("}", None)
    | (k, x) :: l' =>
        let head := buf +:+ encode_string k +:+ ksep in
        match enc x with
        | (s, Some e) => (head +:+ s, Some e)
        | (s, None) => let r := loop isep l' in (head +:+ s +:+ fst r, snd r)
        end
    end.

(** [JSONEncoder(separators=(isep, ksep)).iterencode(v)]: the text of the
    chunks produced, in order, and the error that stopped the encoder, if
    one did.  [json.dump] writes every chunk to the file as it comes, so on
    an error the text is what reached the file.

    The encoder is modelled on the finite values of [pyval], with ints that
    [str] converts and nesting the interpreter's stack can follow; there
    its only error is the [TypeError] for a value it has no rule for.
    CPython's encoder has three more ways to fail, which are outside this
    model: [ValueError] for a container that contains itself and for an int
    of more than 4300 digits, and [RecursionError] for nesting deeper than
    the stack. *)
Fixpoint iterencode (isep ksep : string) (v : pyval) {struct v} : string * option exn :=
  match v with
  | PNone => ("null", None)
  | PBool b => (if b then "true" else "false", None)
  | PInt n => (pretty n, None)
  | PStr s => (encode_string s, None)
  | PList [] => ("[]", None)
  | PList items => encode_list_items (iterencode isep ksep) isep "[" items
  | PDict [] => ("{}", None)
  | PDict items => encode_dict_items (iterencode isep ksep) isep ksep "{" items
  | PObj t _ _ =>
      ("", Some (TypeError ("Object of type " +:+ t +:+ " is not JSON serializable")))
  end.

(** The values the encoder has a rule for, all the way down. *)
Fixpoint serializable (v : pyval) : bool :=
  match v with
  | PList items => forallb serializable items
  | PDict items => forallb (fun kv => serializable (snd kv)) items
  | PObj _ _ _ => false
  | _ => true
  end.

(** [json.dumps(v)], with the default separators. *)
Definition dumps (v : pyval) : exn + string :=
  match iterencode ", " ": " v with
  | (s, None) => inr s
  | (_, Some e) => inl e
  end.

End Json.

(** ** The plugin object, the local machine and the object store *)

(** [bucket] and [seen] are the attributes of the [Output] object; [files]
    is the local file system (path to content) and [stdout] the lines
    printed so far. *)
Record state : Type := State {
  bucket : string;
  seen : gset string;
  files : gmap string (list Byte.byte);
  stdout : list string
}.

Definition print (line : string) (st : state) : state :=
  State (bucket st) (seen st) (files st) (stdout st ++ [line]).

(** [self.seen.add(key)] *)
Definition seen_add (key : string) (st : state) : state :=
  State (bucket st) ({[key]} ∪ seen st) (files st) (stdout st).

Definition write_file (path : string) (content : list Byte.byte) (st : state) : state :=
  State (bucket st) (seen st) (<[path := content]> (files st)) (stdout st).

(** [open(filename, "rb").read()].  The file system is modelled by [str]
    paths.  A name of another type is refused, as [open] refuses [None], a
    list or a dict; a [bytes] or path-like name and a file descriptor (an
    int), which [open] also accepts, are outside this model. *)
Definition read_file (filename : pyval) (st : state) : exn + list Byte.byte :=
  match filename with
  | PStr path =>
      match files st !! path with
      | Some content => inr content
      | None => inl (FileNotFoundError path)
      end
  | _ => inl (TypeError ("expected str, bytes or os.PathLike object, not "
                          +:+ Py.type_name filename))
  end.

Definition remove_file (path : string) (st : state) : state :=
  State (bucket st) (seen st) (delete path (files st)) (stdout st).

(** [os.unlink(filename)], for a [str] path as in [read_file]. *)
Definition unlink (filename : pyval) (st : state) : exn + state :=
  match filename with
  | PStr path =>
      match files st !! path with
      | Some _ => inr (remove_file path st)
      | None => inl (FileNotFoundError path)
      end
  | _ => inl (TypeError ("unlink: path should be string, bytes or os.PathLike, not "
                          +:+ Py.type_name filename))
  end.

(** The two calls made on the object-store client, each run on a worker
    thread by [threads.deferToThread]. *)
Inductive request : Type :=
| head_object (Bucket Key : string)
| put_object (Bucket Key : string) (Body : list Byte.byte) (ContentType : string).

(** What the worker thread hands back: the call returned (its value is
    never used), or it raised. *)
Inductive response : Type :=
| Returned
| Raised (e : exn).

(** A generator under [defer.inlineCallbacks].  It has either finished, with
    a value or with a failure, or it is suspended at a [yield] on a remote
    call; it is resumed with the answer, in the state the plugin is in by
    then. *)
Inductive deferred (R : Type) : Type :=
| Fired (st : state) (result : exn + R)
| Waiting (st : state) (req : request) (resume : response -> state -> deferred R).

Arguments Fired {R} st result.
Arguments Waiting {R} st req resume.

(** [x = yield d] inside an [inlineCallbacks] generator. *)
Fixpoint yield_from {A B : Type} (d : deferred A) (k : A -> state -> deferred B)
  : deferred B :=
  match d with
  | Fired st (inr a) => k a st
  | Fired st (inl e) => Fired st (inl e)
  | Waiting st req resume => Waiting st req (fun resp st' => yield_from (resume resp st') k)
  end.

(** The object store as the plugin sees it: the answer to a request, given
    the requests made before it. *)
Definition store := list request -> request -> response.

(** Runs a generator to its end with nothing else scheduled in between:
    final state, result, and the requests made, oldest first. *)
Fixpoint run {R : Type} (env : store) (hist : list request) (d : deferred R)
  : state * (exn + R) * list request :=
  match d with
  | Fired st result => (st, result, hist)
  | Waiting st req resume => run env (hist ++ [req]) (resume (env hist req) st)
  end.

(** ** [class Output] *)

(** [Output.start]: the bucket name comes from the configuration and the
    dedup cache starts empty.  The botocore session and client it builds are
    the object store the requests go to. *)
Definition start (config_bucket : string) (local_files : gmap string (list Byte.byte))
    (printed : list string) : state :=
  State config_bucket ∅ local_files printed.

(** [Output.stop] *)
Definition stop (self : state) : state := self.

(** [Output._object_exists_remote] *)
Definition _object_exists_remote (shasum : string) (self : state) : deferred bool :=
  Waiting self (head_object (bucket self) shasum)
    (fun resp self =>
       match resp with
       | Returned => Fired self (inr true)
       | Raised (ClientError code) =>
           if String.eqb code "404" then Fired self (inr false)
           else Fired self (inl (ClientError code))
       | Raised e => Fired self (inl e)
       end).

(** The lines [upload] prints. *)
Definition msg_already (shasum : string) : string :=
  "Already uploaded file with sha " +:+ shasum +:+ " to S3".

Definition msg_somebody (shasum : string) : string :=
  "Somebody else already uploaded file with sha " +:+ shasum +:+ " to S3".

Definition msg_uploading (shasum : string) (filename : pyval) : string :=
  "Uploading file with sha " +:+ shasum +:+ " (" +:+ Py.str filename +:+ ") to S3".

(** [Output.upload] *)
Definition upload (shasum : string) (filename : pyval) (self : state) : deferred unit :=
  if bool_decide (shasum ∈ seen self) then
    Fired (print (msg_already shasum) self) (inr tt)
  else
    yield_from (_object_exists_remote shasum self)
      (fun exists_ self =>
         if exists_ : bool then
           let self := print (msg_somebody shasum) self in
           Fired (seen_add shasum self) (inr tt)
         else
           let self := print (msg_uploading shasum filename) self in
           match read_file filename self with
           | inl e => Fired self (inl e)
           | inr body =>
               Waiting self
                 (put_object (bucket self) shasum body "application/octet-stream")
                 (fun resp self =>
                    match resp with
                    | Raised e => Fired self (inl e)
                    | Returned =>
                        match unlink filename self with
                        | inl e => Fired self (inl e)
                        | inr self => Fired (seen_add shasum self) (inr tt)
                        end
                    end)
           end).

(** The test of the loop that removes the twisted 15 legacy keys. *)
Definition legacy_key (i : string) : bool :=
  String.prefix "log_" i || String.eqb i "time" || String.eqb i "system".

(** [for i in list(entry.keys()): if ...: del entry[i]], on the snapshot
    [ks] of the keys: the dict as the loop leaves it, and the exception
    that ended it, if one did. *)
Fixpoint strip_legacy (ks : list string) (entry : pydict) : pydict * option exn :=
  match ks with
  | [] => (entry, None)
  | i :: ks' =>
      if legacy_key i then
        match Py.delitem i entry with
        | inl e => (entry, Some e)
        | inr entry' => strip_legacy ks' entry'
        end
      else strip_legacy ks' entry
  end.

(** How the body of [write] ends: with the call [self.upload(key, file)],
    by returning without one, or with an exception. *)
Inductive outcome : Type :=
| Call (shasum : string) (filename : pyval)
| Dropped
| Raise (e : exn).

(** [e == "..."] for a string literal on the right. *)
Definition is_str (v : pyval) (lit : string) : bool :=
  match v with
  | PStr s => String.eqb s lit
  | _ => false
  end.

(** The arguments of [self.upload(prefix + entry["shasum"], entry["outfile"])],
    evaluated left to right. *)
Definition file_event (prefix : string) (entry : pydict) : outcome :=
  match Py.getitem "shasum" entry with
  | inl e => Raise e
  | inr h =>
      match Py.concat prefix h with
      | inl e => Raise e
      | inr key =>
          match Py.getitem "outfile" entry with
          | inl e => Raise e
          | inr f => Call key f
          end
      end
  end.

(** [except TypeError as te:] around the body of the [try]. *)
Definition except_TypeError (e : exn) (entry : pydict) (self : state) : state * outcome :=
  match e with
  | TypeError msg =>
      let self := print ("s3: Can't serialize: '" +:+ Py.repr (PDict entry) +:+ "'") self in
      let self := print ("s3: error=" +:+ msg) self in
      (self, Dropped)
  | _ => (self, Raise e)
  end.

Definition newline : string := String "010" EmptyString.

(** The body of the [try] for a generic event, on the entry already
    stripped; [tfname] is the path [tempfile.mkstemp] returned (it is taken
    to succeed).  The encoder escapes every character outside ASCII, so the
    bytes of the file and those that are hashed are the characters of the
    text. *)
Definition generic_event (entry : pydict) (tfname : string) (self : state)
  : state * outcome :=
  match Json.iterencode "," ":" (PDict entry) with
  | (written, Some e) =>
      except_TypeError e entry (write_file tfname (list_byte_of_string written) self)
  | (text, None) =>
      let self := write_file tfname (list_byte_of_string (text +:+ newline)) self in
      match Json.dumps (PDict entry) with
      | inl e => except_TypeError e entry self
      | inr js =>
          let hexdigest := Sha256.hexdigest (list_byte_of_string js) in
          if Py.has_key "session" entry then
            match Py.getitem "session" entry with
            | inl e => except_TypeError e entry self
            | inr session =>
                if Py.truthy session then
                  match Py.concat "cowrie/events/" session with
                  | inl e => except_TypeError e entry self
                  | inr with_session =>
                      (self, Call ((with_session +:+ "-") +:+ hexdigest) (PStr tfname))
                  end
                else (self, Dropped)
            end
          else (self, Dropped)
      end
  end.

(** [Output.write], up to the call of [self.upload]: the caller's dict as the
    call leaves it, the state, and how the body ends. *)
Definition dispatch (self : state) (entry : pydict) (tfname : string)
  : pydict * state * outcome :=
  match Py.getitem "eventid" entry with
  | inl e => (entry, self, Raise e)
  | inr eventid =>
      if is_str eventid "cowrie.session.file_download" then
        (entry, self, file_event "cowrie/downloads/" entry)
      else if is_str eventid "cowrie.session.file_upload" then
        (entry, self, file_event "cowrie/uploads/" entry)
      else
        match strip_legacy (Py.keys entry) entry with
        | (entry', Some e) => (entry', self, Raise e)
        | (stripped, None) =>
            let '(self, o) := generic_event stripped tfname self in
            (stripped, self, o)
        end
  end.

(** What [write] leaves behind: the caller's dict, the exception
    propagated to the caller if there is one, and otherwise the state and
    the Deferred of the upload it started, if it started one.  [write] drops
    that Deferred: a failure of the upload never reaches [write]'s caller. *)
Record written : Type := Written {
  w_entry : pydict;
  w_state : state;
  w_raised : option exn;
  w_upload : option (deferred unit)
}.

(** [Output.write] *)
Definition write (self : state) (entry : pydict) (tfname : string) : written :=
  match dispatch self entry tfname with
  | (entry', self, Call shasum filename) =>
      Written entry' self None (Some (upload shasum filename self))
  | (entry', self, Dropped) => Written entry' self None None
  | (entry', self, Raise e) => Written entry' self (Some e) None
  end.

(** [write], then the upload it started run to its end, with nothing else
    scheduled in between: final state and the requests made. *)
Definition settle (env : store) (hist : list request) (w : written)
  : state * list request :=
  match w_upload w with
  | Some d => let '(st, _, h) := run env hist d in (st, h)
  | None => (w_state w, hist)
  end.

(** The fields of a record the legacy-key loop keeps, in their order. *)
Definition kept (entry : pydict) : pydict :=
  List.filter (fun kv => negb (legacy_key (fst kv))) entry.

(** A generic record: it has an [eventid], and it is neither of the two file
    markers. *)
Definition generic (entry : pydict) : Prop :=
  exists eventid,
    Py.getitem "eventid" entry = inr eventid
    /\ is_str eventid "cowrie.session.file_download" = false
    /\ is_str eventid "cowrie.session.file_upload" = false.

(** The remote calls of a history that are puts. *)
Definition is_put (r : request) : bool :=
  match r with
  | put_object _ _ _ _ => true
  | head_object _ _ => false
  end.

Definition puts (hist : list request) : list request := List.filter is_put hist.

(** The text [json.dump(entry, f, separators=(",", ":"))] writes. *)
Definition compact_text (entry : pydict) : string :=
  fst (Json.iterencode "," ":" (PDict entry)).

(** The text [json.dumps(entry)] returns. *)
Definition default_text (entry : pydict) : string :=
  fst (Json.iterencode ", " ": " (PDict entry)).

(** ['cowrie/events/' + session + '-' + sha1.hexdigest()], for the hash of
    [json.dumps(entry).encode('utf-8')]. *)
Definition event_key (session : string) (entry : pydict) : string :=
  (("cowrie/events/" +:+ session) +:+ "-")
    +:+ Sha256.hexdigest (list_byte_of_string (default_text entry)).

(** The dedup cache never shrinks along a generator, whatever the state it
    is resumed in: each stretch between two suspension points leaves a cache
    that contains the one it started from. *)
Inductive cache_grows {R : Type} (before : gset string) : deferred R -> Prop :=
| grows_fired st result :
    before ⊆ seen st -> cache_grows before (Fired st result)
| grows_waiting st req resume :
    before ⊆ seen st ->
    (forall resp st', cache_grows (seen st') (resume resp st')) ->
    cache_grows before (Waiting st req resume).

(** ** Sample records and states *)

Definition sample_state : state := start "honeypot-bucket" ∅ [].

Definition sample_download : pydict :=
  [ ("eventid", PStr "cowrie.session.file_download");
    ("shasum", PStr "aaaa");
    ("outfile", PStr "/tmp/x") ].

Definition sample_upload : pydict :=
  [ ("eventid", PStr "cowrie.session.file_upload");
    ("shasum", PStr "bbbb");
    ("outfile", PStr "/tmp/y") ].

Definition sample_event : pydict :=
  [ ("eventid", PStr "cowrie.login.success");
    ("session", PStr "abc123");
    ("time", PStr "2024-01-01T00:00:00");
    ("log_level", PInt 20);
    ("username", PStr "root");
    ("system", PStr "HoneyPotSSHTransport") ].

(** [sample_event] at another time: the two differ in a stripped field only. *)
Definition sample_event_later : pydict :=
  [ ("eventid", PStr "cowrie.login.success");
    ("session", PStr "abc123");
    ("time", PStr "2024-01-01T00:00:07");
    ("log_level", PInt 20);
    ("username", PStr "root");
    ("system", PStr "HoneyPotSSHTransport") ].

Definition sample_sessionless : pydict :=
  [ ("eventid", PStr "cowrie.direct-tcpip.data");
    ("session", PStr EmptyString);
    ("time", PStr "2024-01-01T00:00:00") ].

Definition sample_unserializable : pydict :=
  [ ("eventid", PStr "cowrie.command.input");
    ("session", PStr "abc123");
    ("input", PObj "bytes" "b'ls'" true);
    ("time", PStr "2024-01-01T00:00:00") ].

(** A store that holds what has been put into it: the probe finds a key
    once a put for it is in the history, and every put is accepted. *)
Definition is_put_of (Bucket Key : string) (r : request) : bool :=
  match r with
  | put_object b k _ _ => String.eqb b Bucket && String.eqb k Key
  | head_object _ _ => false
  end.

Definition fresh_store : store :=
  fun hist req =>
    match req with
    | head_object b k =>
        if existsb (is_put_of b k) hist then Returned else Raised (ClientError "404")
    | put_object _ _ _ _ => Returned
    end.

(** A store that refuses every call. *)
Definition denying_store : store :=
  fun _ _ => Raised (ClientError "403").

Definition sample_body : list Byte.byte := list_byte_of_string "#!/bin/sh".

(** The plugin just started, with one captured file on disk. *)
Definition sample_staged : state :=
  start "honeypot-bucket" {[ "/tmp/x" := sample_body ]} [].

Definition text_of_codes (codes : list nat) : string :=
  string_of_list_ascii (map ascii_of_nat codes).

(** A record with every kind of character the encoder and [repr] treat
    apart, given by code points ([x], DEL, e-acute, SOH, a double quote, a
    backslash, newline, tab, carriage return, backspace, form feed, [/]),
    and with nested and empty containers. *)
Definition sample_nested : pydict :=
  [ ("a", PStr (text_of_codes [120; 127; 233; 1; 34; 92; 10; 9; 13; 8; 12; 47]%nat));
    ("b", PList [PInt 1; PInt (-2); PBool true; PBool false; PNone; PDict []]);
    ("c", PDict [("d", PList []); ("e", PList [PList [PInt 0]])]) ].

Definition sample_quotes : pydict :=
  [ ("a", PStr "it's");
    ("b", PStr (text_of_codes [113; 34]%nat));
    ("c", PStr (text_of_codes [98; 111; 116; 104; 39; 34]%nat));
    ("d", PStr (text_of_codes [127; 160; 173; 233; 10; 9; 1; 92]%nat)) ].

(** ** The reactor: generators that overlap *)



(** The worker thread has answered: the reactor runs the generator on, in
    the state the plugin is in now, up to its next suspension or its end. *)
Definition resume {R : Type} (d : deferred R) (resp : response) (now : state)
  : deferred R :=
  match d with
  | Waiting _ _ k => k resp now
  | Fired _ _ => d
  end.

(** The three kinds of record [write] tells apart by [eventid]. *)
Inductive kind : Type := FileDownload | FileUpload | GenericEvent.

Definition kind_of (eventid : pyval) : kind :=
  if is_str eventid "cowrie.session.file_download" then FileDownload
  else if is_str eventid "cowrie.session.file_upload" then FileUpload
  else GenericEvent.

(** ** [Output.start] and the configuration

    [CowrieConfig] is not part of this file: what each of its calls in
    [start] answers is taken as given.  [except NoOptionError] tells one
    exception apart from all others. *)

Inductive config_exn : Type :=
| NoOptionError
| ConfigError (name : string).

(** The answers of [CowrieConfig.get("output_s3", ...)] for each option read;
    [endpoint] is read with [fallback=None] and [verify] by [getboolean]
    with [fallback=True]. *)
Record config_answers : Type := ConfigAnswers {
  get_bucket : config_exn + string;
  get_access_key_id : config_exn + string;
  get_secret_access_key : config_exn + string;
  get_region : config_exn + string;
  get_endpoint : option string;
  getboolean_verify : config_exn + bool
}.

(** What [session.create_client] is called with, and the credentials set on
    the session before, if any were. *)
Record client : Type := Client {
  credentials : option (string * string);
  region_name : string;
  endpoint_url : option string;
  verify : bool
}.

Record started : Type := Started {
  s_self : state;
  s_client : client;
  s_log : list string
}.

Definition nonempty (s : string) : bool :=
  match s with
  | EmptyString => false
  | String _ _ => true
  end.

(** The body of the [try] in [start]: the credentials it sets on the
    session, if it sets any. *)
Definition try_credentials (c : config_answers) : config_exn + option (string * string) :=
  match get_access_key_id c with
  | inl e => inl e
  | inr access =>
      if nonempty access then
        match get_secret_access_key c with
        | inl e => inl e
        | inr secret =>
            if nonempty secret then inr (Some (access, secret)) else inr None
        end
      else inr None
  end.

Definition msg_no_credentials : string :=
  "No AWS credentials found in config - using botocore global settings.".

(** [Output.start], with the configuration it reads: the plugin state of
    [start], the client, and the lines given to [log.msg].  The calls into
    botocore ([get_session], [set_credentials], [create_client]) are not
    modelled: [inr] says that every option was read and what
    [create_client] was called with, not that it returned a client. *)
Definition start_client (c : config_answers)
    (local_files : gmap string (list Byte.byte)) (printed : list string)
  : config_exn + started :=
  match get_bucket c with
  | inl e => inl e
  | inr b =>
      let self := start b local_files printed in
      let tried :=
        match try_credentials c with
        | inr creds => inr (creds, [])
        | inl NoOptionError => inr (None, [msg_no_credentials])
        | inl e => inl e
        end in
      match tried with
      | inl e => inl e
      | inr (creds, logged) =>
          match get_region c with
          | inl e => inl e
          | inr region =>
              match getboolean_verify c with
              | inl e => inl e
              | inr v => inr (Started self (Client creds region (get_endpoint c) v) logged)
              end
          end
      end
  end.

(** A configuration with a bucket and a region and nothing else. *)
Definition sample_config : config_answers :=
  ConfigAnswers (inr "honeypot-bucket") (inl NoOptionError) (inl NoOptionError)
    (inr "eu-west-1") None (inr true).

(** The same with static credentials. *)
Definition sample_config_keys : config_answers :=
  ConfigAnswers (inr "honeypot-bucket") (inr "AKIDEXAMPLE") (inr "s3cr3t")
    (inr "eu-west-1") None (inr true).

(** A store that holds nothing and whose first put fails on the network. *)
Definition flaky_store : store :=
  fun hist req =>
    match req with
    | head_object _ _ => Raised (ClientError "404")
    | put_object _ _ _ _ =>
        if (length hist <? 2)%nat then Raised (OtherError "EndpointConnectionError")
        else Returned
    end.

(** * Properties *)

(** ** Test vectors of SHA-256 (FIPS 180-4, appendix B) *)

Example sha256_empty :
  Sha256.hexdigest [] = "e3b0c44298fc1c149afbf4c8996fb92427ae41e4649b934ca495991b7852b855"%string.
Proof. vm_compute. reflexivity. Qed.

Example sha256_abc :
  Sha256.hexdigest (list_byte_of_string "abc")
  = "ba7816bf8f01cfea414140de5dae2223b00361a396177a9cb410ff61f20015ad"%string.
Proof. vm_compute. reflexivity. Qed.

Example sha256_two_blocks :
  Sha256.hexdigest
    (list_byte_of_string "abcdbcdecdefdefgefghfghighijhijkijkljklmklmnlmnomnopnopq")
  = "248d6a61d20638b8e5c026930c3e6039a33ce45964ff2167f6ecedd419db06c1"%string.
Proof. vm_compute. reflexivity. Qed.

(** ** The encoder and [repr] against CPython

    The digests are those of the texts CPython 3 produces for the same
    values, with [json.dumps], with [json.dumps(..., separators=(",", ":"))]
    and with [repr]. *)

Example json_dumps_sample_nested :
  Sha256.hexdigest (list_byte_of_string (default_text sample_nested))
  = "3d7531fd4b6174c951a650d75c9b5cd60d61940357b08179c23760c9cefb5f0e"%string.
Proof. vm_compute. reflexivity. Qed.

Example json_dump_sample_nested :
  Sha256.hexdigest (list_byte_of_string (compact_text sample_nested))
  = "b68a5663b50a961a4e8d40c459a9216e89c24b68ba4abfb55a719edb9d900824"%string.
Proof. vm_compute. reflexivity. Qed.

Example repr_sample_nested :
  Sha256.hexdigest (list_byte_of_string (Py.repr (PDict sample_nested)))
  = "9f6b54deb61272bde11816b8d00145d3dcc0ef11c76e15e17848ba4d9a115a24"%string.
Proof. vm_compute. reflexivity. Qed.

Example repr_sample_quotes :
  Sha256.hexdigest (list_byte_of_string (Py.repr (PDict sample_quotes)))
  = "98be485086167d7797d26fc6abb79e6d46e0e6c8041e15bd5df6e7a0e668b7b1"%string.
Proof. vm_compute. reflexivity. Qed.

(** ** The encoder fails exactly on the values it has no rule for *)

Lemma encode_list_items_ok enc isep buf (l : list pyval) :
  snd (Json.encode_list_items enc isep buf l) = None
  <-> Forall (fun x => snd (enc x) = None) l.
Proof.
  revert buf. induction l as [|x l IH]; intros buf; simpl.
  - split; [constructor | reflexivity].
  - destruct (enc x) as [s [e|]] eqn:Hx; simpl.
    + split; [discriminate | intros H; inversion H; subst; rewrite Hx in *; simpl in *; discriminate].
    + rewrite IH. split.
      * intros H. constructor; [rewrite Hx; reflexivity | exact H].
      * intros H. inversion H; subst; assumption.
Qed.

Lemma encode_dict_items_ok enc isep ksep buf (l : pydict) :
  snd (Json.encode_dict_items enc isep ksep buf l) = None
  <-> Forall (fun kv => snd (enc (snd kv)) = None) l.
Proof.
  revert buf. induction l as [|[k x] l IH]; intros buf; simpl.
  - split; [constructor | reflexivity].
  - destruct (enc x) as [s [e|]] eqn:Hx; simpl.
    + split; [discriminate | intros H; inversion H; subst; simpl in *; rewrite Hx in *; simpl in *; discriminate].
    + rewrite IH. split.
      * intros H. constructor; [simpl; rewrite Hx; reflexivity | exact H].
      * intros H. inversion H; subst; assumption.
Qed.

Lemma iterencode_ok isep ksep (v : pyval) :
  snd (Json.iterencode isep ksep v) = None <-> Json.serializable v = true.
Proof.
  induction v as [| b | n | s | items IH | items IH | t r b] using pyval_nested_ind.
  - simpl; tauto.
  - simpl; tauto.
  - simpl; tauto.
  - simpl; tauto.
  - destruct items as [|x items]; [simpl; tauto|].
    change (Json.iterencode isep ksep (PList (x :: items)))
      with (Json.encode_list_items (Json.iterencode isep ksep) isep "[" (x :: items)).
    rewrite encode_list_items_ok.
    change (Json.serializable (PList (x :: items)))
      with (forallb Json.serializable (x :: items)).
    rewrite forallb_forall, List.Forall_forall.
    rewrite List.Forall_forall in IH.
    split; intros H y Hy; apply (IH y Hy), H, Hy.
  - destruct items as [|kv items]; [simpl; tauto|].
    change (Json.iterencode isep ksep (PDict (kv :: items)))
      with (Json.encode_dict_items (Json.iterencode isep ksep) isep ksep "{" (kv :: items)).
    rewrite encode_dict_items_ok.
    change (Json.serializable (PDict (kv :: items)))
      with (forallb (fun kv => Json.serializable (snd kv)) (kv :: items)).
    rewrite forallb_forall, List.Forall_forall.
    rewrite List.Forall_forall in IH.
    split; intros H y Hy; apply (IH y Hy), H, Hy.
  - simpl. split; discriminate.
Qed.

Lemma encode_list_items_error (Q : exn -> Prop) enc isep buf (l : list pyval) e :
  Forall (fun x => forall e', snd (enc x) = Some e' -> Q e') l ->
  snd (Json.encode_list_items enc isep buf l) = Some e -> Q e.
Proof.
  intros Hall. revert buf. induction Hall as [|x l Hx _ IH]; intros buf; simpl.
  - discriminate.
  - destruct (enc x) as [s [e'|]]; simpl in *.
    + intros [= <-]. apply Hx. reflexivity.
    + apply IH.
Qed.

Lemma encode_dict_items_error (Q : exn -> Prop) enc isep ksep buf (l : pydict) e :
  Forall (fun kv => forall e', snd (enc (snd kv)) = Some e' -> Q e') l ->
  snd (Json.encode_dict_items enc isep ksep buf l) = Some e -> Q e.
Proof.
  intros Hall. revert buf. induction Hall as [|[k x] l Hx _ IH]; intros buf; simpl.
  - discriminate.
  - simpl in Hx. destruct (enc x) as [s [e'|]]; simpl in *.
    + intros [= <-]. apply Hx. reflexivity.
    + apply IH.
Qed.

(** Whatever stops the encoder is a [TypeError]. *)
Lemma iterencode_error isep ksep (v : pyval) e :
  snd (Json.iterencode isep ksep v) = Some e -> exists msg, e = TypeError msg.
Proof.
  revert e.
  induction v as [| b | n | s | items IH | items IH | t r b] using pyval_nested_ind;
    intros e; try (simpl; discriminate).
  - destruct items as [|x items]; [simpl; discriminate|].
    change (Json.iterencode isep ksep (PList (x :: items)))
      with (Json.encode_list_items (Json.iterencode isep ksep) isep "[" (x :: items)).
    apply (encode_list_items_error (fun e => exists msg, e = TypeError msg)). exact IH.
  - destruct items as [|kv items]; [simpl; discriminate|].
    change (Json.iterencode isep ksep (PDict (kv :: items)))
      with (Json.encode_dict_items (Json.iterencode isep ksep) isep ksep "{" (kv :: items)).
    apply (encode_dict_items_error (fun e => exists msg, e = TypeError msg)). exact IH.
  - simpl. intros [= <-]. eauto.
Qed.

(** ** Dicts and the legacy-key loop *)

Lemma getitem_has_key key (d : pydict) :
  Py.has_key key d = true <-> exists v, Py.getitem key d = inr v.
Proof.
  induction d as [|[k v] d IH]; simpl.
  - split; [discriminate | intros [v [=]]].
  - destruct (String.eqb k key); [split; eauto | exact IH].
Qed.

Lemma getitem_missing key (d : pydict) :
  Py.has_key key d = false -> Py.getitem key d = inl (KeyError key).
Proof.
  induction d as [|[k v] d IH]; simpl; [reflexivity|].
  destruct (String.eqb k key); [discriminate | exact IH].
Qed.

Lemma delitem_middle key v (pre rest : pydict) :
  key ∉ Py.keys pre -> Py.delitem key (pre ++ (key, v) :: rest) = inr (pre ++ rest).
Proof.
  induction pre as [|[k w] pre IH]; simpl; intros Hnot.
  - rewrite String.eqb_refl. reflexivity.
  - apply not_elem_of_cons in Hnot as [Hne Hnot].
    destruct (String.eqb_spec k key) as [->|_]; [contradiction|].
    rewrite (IH Hnot). reflexivity.
Qed.

Lemma strip_legacy_app (rest : pydict) :
  forall pre : pydict,
    NoDup (Py.keys rest) ->
    (forall k, k ∈ Py.keys rest -> k ∉ Py.keys pre) ->
    strip_legacy (Py.keys rest) (pre ++ rest) = (pre ++ kept rest, None).
Proof.
  induction rest as [|[k v] rest IH]; intros pre Hnd Hdisj; simpl.
  - reflexivity.
  - apply NoDup_cons in Hnd as [Hk Hnd].
    unfold kept; simpl. fold (kept rest).
    destruct (legacy_key k) eqn:Hleg; simpl.
    + rewrite delitem_middle by (apply Hdisj; left).
      apply IH; [exact Hnd|]. intros k' Hk'. apply Hdisj. right. exact Hk'.
    + replace (pre ++ (k, v) :: rest) with ((pre ++ [(k, v)]) ++ rest)
        by (rewrite <- app_assoc; reflexivity).
      rewrite IH.
      * rewrite <- app_assoc. reflexivity.
      * exact Hnd.
      * intros k' Hk'. unfold Py.keys. rewrite map_app. simpl.
        rewrite elem_of_app, list_elem_of_singleton.
        intros [Hin | ->]; [|contradiction].
        revert Hin. apply Hdisj. right. exact Hk'.
Qed.

(** On a dict, the loop never fails and leaves exactly the kept fields. *)
Lemma strip_legacy_kept (entry : pydict) :
  Py.wf entry -> strip_legacy (Py.keys entry) entry = (kept entry, None).
Proof.
  intros Hwf. apply (strip_legacy_app entry []); [exact Hwf|].
  intros k _. apply not_elem_of_nil.
Qed.

Lemma getitem_kept key (entry : pydict) :
  legacy_key key = false -> Py.getitem key (kept entry) = Py.getitem key entry.
Proof.
  intros Hkey. induction entry as [|[k v] entry IH]; [reflexivity|].
  unfold kept. cbn [List.filter fst]. fold (kept entry).
  destruct (legacy_key k) eqn:Hk; cbn [negb Py.getitem].
  - destruct (String.eqb_spec k key) as [->|Hne]; [congruence | exact IH].
  - destruct (String.eqb k key); [reflexivity | exact IH].
Qed.

Lemma has_key_kept key (entry : pydict) :
  Py.has_key key (kept entry) = Py.has_key key entry && negb (legacy_key key).
Proof.
  induction entry as [|[k v] entry IH]; [reflexivity|].
  unfold kept. cbn [List.filter fst]. fold (kept entry).
  destruct (legacy_key k) eqn:Hk; cbn [negb Py.has_key].
  - destruct (String.eqb_spec k key) as [->|Hne]; [|exact IH].
    rewrite IH, Hk. cbn. apply andb_false_r.
  - destruct (String.eqb_spec k key) as [->|Hne]; [|exact IH].
    rewrite Hk. reflexivity.
Qed.

(** ** The dispatch layer *)

Lemma iterencode_serializable isep ksep (v : pyval) :
  Json.serializable v = true ->
  Json.iterencode isep ksep v = (fst (Json.iterencode isep ksep v), None).
Proof.
  intros Hv. apply (iterencode_ok isep ksep) in Hv.
  destruct (Json.iterencode isep ksep v) as [s o]. simpl in *. subst. reflexivity.
Qed.

Lemma iterencode_unserializable isep ksep (v : pyval) :
  Json.serializable v = false ->
  exists msg,
    Json.iterencode isep ksep v = (fst (Json.iterencode isep ksep v), Some (TypeError msg)).
Proof.
  intros Hv.
  destruct (Json.iterencode isep ksep v) as [s o] eqn:Henc.
  destruct o as [e|].
  - destruct (iterencode_error isep ksep v e) as [msg ->]; [rewrite Henc; reflexivity|].
    exists msg. reflexivity.
  - assert (Json.serializable v = true) by (apply (iterencode_ok isep ksep); rewrite Henc; reflexivity).
    congruence.
Qed.

(** A generic record goes through the loop and then the [try]. *)
Lemma dispatch_generic self (entry : pydict) tfname :
  Py.wf entry -> generic entry ->
  dispatch self entry tfname
  = (kept entry, fst (generic_event (kept entry) tfname self),
     snd (generic_event (kept entry) tfname self)).
Proof.
  intros Hwf (eventid & Hid & Hd & Hu). unfold dispatch.
  rewrite Hid, Hd, Hu, (strip_legacy_kept entry Hwf).
  destruct (generic_event (kept entry) tfname self). reflexivity.
Qed.

(** A serializable record is staged, then keyed by its session if it has a
    true one. *)
Lemma generic_event_serializable (entry : pydict) tfname self :
  Json.serializable (PDict entry) = true ->
  generic_event entry tfname self
  = let staged :=
      write_file tfname (list_byte_of_string (compact_text entry +:+ newline)) self in
    if Py.has_key "session" entry then
      match Py.getitem "session" entry with
      | inl e => except_TypeError e entry staged
      | inr session =>
          if Py.truthy session then
            match Py.concat "cowrie/events/" session with
            | inl e => except_TypeError e entry staged
            | inr with_session =>
                (staged,
                 Call ((with_session +:+ "-")
                       +:+ Sha256.hexdigest (list_byte_of_string (default_text entry)))
                   (PStr tfname))
            end
          else (staged, Dropped)
      end
    else (staged, Dropped).
Proof.
  intros Hser. unfold generic_event, Json.dumps, compact_text, default_text.
  rewrite (iterencode_serializable "," ":" _ Hser).
  rewrite (iterencode_serializable ", " ": " _ Hser).
  reflexivity.
Qed.

Lemma generic_event_unserializable (entry : pydict) tfname self :
  Json.serializable (PDict entry) = false ->
  exists msg,
    snd (Json.iterencode "," ":" (PDict entry)) = Some (TypeError msg)
    /\ generic_event entry tfname self
       = (print ("s3: error=" +:+ msg)
            (print ("s3: Can't serialize: '" +:+ Py.repr (PDict entry) +:+ "'")
               (write_file tfname (list_byte_of_string (compact_text entry)) self)),
          Dropped).
Proof.
  intros Hser.
  destruct (iterencode_unserializable "," ":" _ Hser) as [msg Henc].
  exists msg. unfold generic_event, compact_text. rewrite Henc. simpl. split; reflexivity.
Qed.

(** [write] makes the call the body ends with, in the state the body left. *)
Lemma write_calls_upload self (entry entry' : pydict) tfname st key f :
  dispatch self entry tfname = (entry', st, Call key f) ->
  write self entry tfname = Written entry' st None (Some (upload key f st)).
Proof. intros H. unfold write. rewrite H. reflexivity. Qed.

Lemma file_event_key prefix (entry : pydict) h f :
  Py.getitem "shasum" entry = inr (PStr h) ->
  Py.getitem "outfile" entry = inr f ->
  file_event prefix entry = Call (prefix +:+ h) f.
Proof. intros Hh Hf. unfold file_event. rewrite Hh. simpl. rewrite Hf. reflexivity. Qed.

Lemma truthy_str (s : string) : s <> EmptyString -> Py.truthy (PStr s) = true.
Proof. destruct s; [congruence | reflexivity]. Qed.

(** C1, as amended: every content key carries the prefix [cowrie/].  A
    file-download record with content hash [h] is uploaded under
    ["cowrie/downloads/" + h], a file-upload record under
    ["cowrie/uploads/" + h], both from the record's [outfile]; a generic
    record with a non-empty session [s] that serializes is uploaded, from
    the temporary file, under ["cowrie/events/" + s + "-" + d], where [d] is
    the hex SHA-256 of [json.dumps] of the stripped record. *)
Theorem write_content_key :
  (forall self (entry : pydict) tfname h f,
      Py.getitem "eventid" entry = inr (PStr "cowrie.session.file_download") ->
      Py.getitem "shasum" entry = inr (PStr h) ->
      Py.getitem "outfile" entry = inr f ->
      dispatch self entry tfname = (entry, self, Call ("cowrie/downloads/" +:+ h) f))
  /\ (forall self (entry : pydict) tfname h f,
      Py.getitem "eventid" entry = inr (PStr "cowrie.session.file_upload") ->
      Py.getitem "shasum" entry = inr (PStr h) ->
      Py.getitem "outfile" entry = inr f ->
      dispatch self entry tfname = (entry, self, Call ("cowrie/uploads/" +:+ h) f))
  /\ (forall self (entry : pydict) tfname s,
      Py.wf entry -> generic entry ->
      Py.getitem "session" entry = inr (PStr s) -> s <> EmptyString ->
      Json.serializable (PDict (kept entry)) = true ->
      dispatch self entry tfname
      = (kept entry,
         write_file tfname
           (list_byte_of_string (compact_text (kept entry) +:+ newline)) self,
         Call (event_key s (kept entry)) (PStr tfname))).
Proof.
  split; [|split].
  - intros self entry tfname h f Hid Hh Hf. unfold dispatch. rewrite Hid.
    cbn [is_str]. rewrite String.eqb_refl, (file_event_key _ entry h f Hh Hf). reflexivity.
  - intros self entry tfname h f Hid Hh Hf. unfold dispatch. rewrite Hid.
    cbn [is_str].
    replace ("cowrie.session.file_upload" =? "cowrie.session.file_download")%string
      with false by reflexivity.
    rewrite String.eqb_refl, (file_event_key _ entry h f Hh Hf). reflexivity.
  - intros self entry tfname s Hwf Hgen Hs Hne Hser.
    rewrite (dispatch_generic self entry tfname Hwf Hgen).
    rewrite (generic_event_serializable _ tfname self Hser). cbv zeta.
    assert (Hk : Py.getitem "session" (kept entry) = inr (PStr s))
      by (rewrite getitem_kept; [exact Hs | reflexivity]).
    assert (Hhas : Py.has_key "session" (kept entry) = true)
      by (apply getitem_has_key; eauto).
    rewrite Hhas, Hk, (truthy_str s Hne). reflexivity.
Qed.

Lemma sample_event_wf : Py.wf sample_event.
Proof. unfold Py.wf. apply (bool_decide_unpack _). vm_compute. exact I. Qed.

Lemma sample_event_generic : generic sample_event.
Proof. exists (PStr "cowrie.login.success"). repeat split; reflexivity. Qed.

Lemma write_content_key_witness :
  dispatch sample_state sample_download "/tmp/tmpab12"
  = (sample_download, sample_state, Call "cowrie/downloads/aaaa" (PStr "/tmp/x"))
  /\ dispatch sample_state sample_upload "/tmp/tmpab12"
     = (sample_upload, sample_state, Call "cowrie/uploads/bbbb" (PStr "/tmp/y"))
  /\ snd (dispatch sample_state sample_event "/tmp/tmpab12")
     = Call (event_key "abc123" (kept sample_event)) (PStr "/tmp/tmpab12").
Proof.
  destruct write_content_key as (Hdown & Hup & Hev).
  split; [|split].
  - apply (Hdown sample_state sample_download "/tmp/tmpab12" "aaaa" (PStr "/tmp/x"));
      reflexivity.
  - apply (Hup sample_state sample_upload "/tmp/tmpab12" "bbbb" (PStr "/tmp/y"));
      reflexivity.
  - rewrite (Hev sample_state sample_event "/tmp/tmpab12" "abc123").
    + reflexivity.
    + exact sample_event_wf.
    + exact sample_event_generic.
    + reflexivity.
    + discriminate.
    + reflexivity.
Defined.

(** C1 as stated fails: the key of a download record with hash [aaaa] is
    [cowrie/downloads/aaaa], not [downloads/aaaa]. *)
Lemma content_key_not_bare_namespace :
  snd (dispatch sample_state sample_download "/tmp/tmpab12")
  = Call "cowrie/downloads/aaaa" (PStr "/tmp/x")
  /\ (snd (dispatch sample_state sample_download "/tmp/tmpab12")
      = Call ("downloads/" +:+ "aaaa") (PStr "/tmp/x") -> False).
Proof. split; [reflexivity | discriminate]. Qed.

(** Whenever a generic record is uploaded, it has a string session, its
    key is built from it and from the hash of the stripped record, and the
    staged file holds the compact text of the stripped record and a newline. *)
Lemma generic_event_call (entry : pydict) tfname self key f :
  snd (generic_event entry tfname self) = Call key f ->
  exists s,
    Py.getitem "session" entry = inr (PStr s)
    /\ s <> EmptyString
    /\ key = event_key s entry
    /\ f = PStr tfname
    /\ fst (generic_event entry tfname self)
       = write_file tfname (list_byte_of_string (compact_text entry +:+ newline)) self.
Proof.
  destruct (Json.serializable (PDict entry)) eqn:Hser.
  - rewrite (generic_event_serializable entry tfname self Hser). cbv zeta.
    destruct (Py.has_key "session" entry) eqn:Hhas; [|discriminate].
    apply getitem_has_key in Hhas as [v Hv]. rewrite Hv.
    destruct (Py.truthy v) eqn:Htrue; [|discriminate].
    destruct v as [| b | n | s | items | items | t r b]; simpl; try discriminate.
    intros [= <- <-]. exists s. repeat split.
    intros ->. discriminate.
  - destruct (generic_event_unserializable entry tfname self Hser) as (msg & _ & ->).
    discriminate.
Qed.

(** C2, as amended: the hash in the key of a generic record is computed
    over [json.dumps] of the record after the legacy fields have been
    stripped, and the staged file holds the compact serialization of that
    same stripped record; so two records that differ in stripped fields only
    are staged and keyed alike. *)
Theorem event_hash_of_stripped_record self (entry : pydict) tfname key f :
  Py.wf entry -> generic entry ->
  snd (dispatch self entry tfname) = Call key f ->
  (exists s,
      Py.getitem "session" entry = inr (PStr s)
      /\ key = (("cowrie/events/" +:+ s) +:+ "-")
               +:+ Sha256.hexdigest
                     (list_byte_of_string (fst (Json.iterencode ", " ": " (PDict (kept entry)))))
      /\ files (snd (fst (dispatch self entry tfname))) !! tfname
         = Some (list_byte_of_string
                   (fst (Json.iterencode "," ":" (PDict (kept entry))) +:+ newline)))
  /\ (forall other : pydict,
        Py.wf other -> generic other -> kept other = kept entry ->
        dispatch self other tfname = dispatch self entry tfname).
Proof.
  intros Hwf Hgen Hcall. split.
  - rewrite (dispatch_generic self entry tfname Hwf Hgen) in *. simpl in *.
    destruct (generic_event_call _ _ _ _ _ Hcall) as (s & Hs & _ & -> & _ & ->).
    exists s. split; [|split].
    + rewrite <- Hs. symmetry. apply getitem_kept. reflexivity.
    + reflexivity.
    + simpl. apply lookup_insert_eq.
  - intros other Hwf' Hgen' Hkept.
    rewrite (dispatch_generic self other tfname Hwf' Hgen').
    rewrite (dispatch_generic self entry tfname Hwf Hgen).
    rewrite Hkept. reflexivity.
Qed.

Lemma event_hash_of_stripped_record_witness :
  exists s,
    Py.getitem "session" sample_event = inr (PStr s)
    /\ event_key "abc123" (kept sample_event)
       = (("cowrie/events/" +:+ s) +:+ "-")
           +:+ Sha256.hexdigest
                 (list_byte_of_string
                    (fst (Json.iterencode ", " ": " (PDict (kept sample_event))))).
Proof.
  destruct (event_hash_of_stripped_record sample_state sample_event "/tmp/tmpab12"
              (event_key "abc123" (kept sample_event)) (PStr "/tmp/tmpab12")
              sample_event_wf sample_event_generic)
    as [(s & Hs & Hkey & _) _].
  - vm_compute. reflexivity.
  - exists s. split; assumption.
Defined.

(** C2 as stated fails: for [sample_event], which has a [time] field, the
    key the code forms is not the one built from the hash of the original
    record, and the same record at another time gets the very same key. *)
Lemma event_hash_not_of_original_record :
  snd (dispatch sample_state sample_event "/tmp/tmpab12")
  = Call "cowrie/events/abc123-31a29fa1fa2cca8548b49a5a403410f2f0f6a25c09dda59944f94e5f241bea62"
      (PStr "/tmp/tmpab12")
  /\ event_key "abc123" sample_event
     = "cowrie/events/abc123-10903c8456314743585c2763be1e38fd3d49c9069d966ebae718e68e398e995f"
  /\ (snd (dispatch sample_state sample_event "/tmp/tmpab12")
      = Call (event_key "abc123" sample_event) (PStr "/tmp/tmpab12") -> False)
  /\ snd (dispatch sample_state sample_event_later "/tmp/tmpab12")
     = snd (dispatch sample_state sample_event "/tmp/tmpab12").
Proof.
  split; [|split; [|split]].
  - vm_compute. reflexivity.
  - vm_compute. reflexivity.
  - vm_compute. discriminate.
  - vm_compute. reflexivity.
Qed.

(** C7: a generic record with no session, or with an empty (false) one, is
    dropped: the body of [write] ends without a call of [upload], so no key
    is formed, no Deferred is started and nothing is raised. *)
Theorem sessionless_event_dropped self (entry : pydict) tfname :
  Py.wf entry -> generic entry ->
  (Py.has_key "session" entry = false
   \/ exists v, Py.getitem "session" entry = inr v /\ Py.truthy v = false) ->
  snd (dispatch self entry tfname) = Dropped
  /\ w_upload (write self entry tfname) = None
  /\ w_raised (write self entry tfname) = None
  /\ forall env hist, snd (settle env hist (write self entry tfname)) = hist.
Proof.
  intros Hwf Hgen Hsession.
  assert (Hdrop : snd (dispatch self entry tfname) = Dropped).
  { rewrite (dispatch_generic self entry tfname Hwf Hgen). simpl.
    destruct (Json.serializable (PDict (kept entry))) eqn:Hser.
    - rewrite (generic_event_serializable _ tfname self Hser). cbv zeta.
      destruct Hsession as [Habsent | (v & Hv & Hfalse)].
      + rewrite has_key_kept, Habsent. reflexivity.
      + assert (Hk : Py.getitem "session" (kept entry) = inr v)
          by (rewrite getitem_kept; [exact Hv | reflexivity]).
        assert (Hhas : Py.has_key "session" (kept entry) = true)
          by (apply getitem_has_key; eauto).
        rewrite Hhas, Hk, Hfalse. reflexivity.
    - destruct (generic_event_unserializable _ tfname self Hser) as (msg & _ & ->).
      reflexivity. }
  unfold settle, write.
  destruct (dispatch self entry tfname) as [[entry' st] o]. simpl in Hdrop. subst o.
  simpl. auto.
Qed.

Lemma sample_sessionless_wf : Py.wf sample_sessionless.
Proof. unfold Py.wf. apply (bool_decide_unpack _). vm_compute. exact I. Qed.

Lemma sample_sessionless_generic : generic sample_sessionless.
Proof. exists (PStr "cowrie.direct-tcpip.data"). repeat split; reflexivity. Qed.

Lemma sessionless_event_dropped_witness :
  snd (dispatch sample_state sample_sessionless "/tmp/tmpab12") = Dropped
  /\ w_upload (write sample_state sample_sessionless "/tmp/tmpab12") = None.
Proof.
  destruct (sessionless_event_dropped sample_state sample_sessionless "/tmp/tmpab12"
              sample_sessionless_wf sample_sessionless_generic)
    as (Hdrop & Hup & _).
  - right. exists (PStr EmptyString). split; reflexivity.
  - split; assumption.
Defined.


(** A record with a [bytes] value: the encoder writes the text up to that
    value into the temporary file and raises [TypeError]; the two lines are
    printed, nothing is uploaded and nothing is raised. *)
Example write_sample_unserializable :
  w_raised (write sample_state sample_unserializable "/tmp/tmpab12") = None
  /\ w_upload (write sample_state sample_unserializable "/tmp/tmpab12") = None
  /\ stdout (w_state (write sample_state sample_unserializable "/tmp/tmpab12"))
     = stdout sample_state
       ++ [ "s3: Can't serialize: '{'eventid': 'cowrie.command.input', 'session': 'abc123', 'input': b'ls'}'";
            "s3: error=Object of type bytes is not JSON serializable" ]
  /\ files (w_state (write sample_state sample_unserializable "/tmp/tmpab12"))
       !! "/tmp/tmpab12"
     = Some (list_byte_of_string
               ("{" +:+ String Py.dquote "eventid" +:+ String Py.dquote ":"
                +:+ String Py.dquote "cowrie.command.input" +:+ String Py.dquote ","
                +:+ String Py.dquote "session" +:+ String Py.dquote ":"
                +:+ String Py.dquote "abc123" +:+ String Py.dquote ","
                +:+ String Py.dquote "input" +:+ String Py.dquote ":")).
Proof. repeat split; vm_compute; reflexivity. Qed.

(** C10: for a generic record [write] changes the caller's dict itself.
    When it returns, the dict holds no key that starts with [log_] or is
    [time] or [system], whatever became of the event, and every other field
    is there as before, in the same order. *)
Theorem write_strips_callers_record self (entry : pydict) tfname :
  Py.wf entry -> generic entry ->
  w_entry (write self entry tfname) = kept entry
  /\ (forall key,
        String.prefix "log_" key = true \/ key = "time" \/ key = "system" ->
        Py.has_key key (w_entry (write self entry tfname)) = false)
  /\ (forall key,
        legacy_key key = false ->
        Py.getitem key (w_entry (write self entry tfname)) = Py.getitem key entry).
Proof.
  intros Hwf Hgen.
  assert (Hentry : w_entry (write self entry tfname) = kept entry).
  { unfold write. rewrite (dispatch_generic self entry tfname Hwf Hgen).
    destruct (snd (generic_event (kept entry) tfname self)); reflexivity. }
  rewrite Hentry. split; [reflexivity|]. split.
  - intros key Hkey. rewrite has_key_kept.
    assert (Hleg : legacy_key key = true).
    { unfold legacy_key. destruct Hkey as [-> | [-> | ->]]; reflexivity. }
    rewrite Hleg. apply andb_false_r.
  - intros key Hkey. apply getitem_kept. exact Hkey.
Qed.

Lemma write_strips_callers_record_witness :
  w_entry (write sample_state sample_event "/tmp/tmpab12")
  = [ ("eventid", PStr "cowrie.login.success");
      ("session", PStr "abc123");
      ("username", PStr "root") ].
Proof.
  destruct (write_strips_callers_record sample_state sample_event "/tmp/tmpab12"
              sample_event_wf sample_event_generic) as [Hentry _].
  rewrite Hentry. reflexivity.
Defined.

(** ** The upload state machine *)

Lemma upload_seen shasum filename self :
  shasum ∈ seen self ->
  upload shasum filename self = Fired (print (msg_already shasum) self) (inr tt).
Proof. intros Hin. unfold upload. rewrite bool_decide_eq_true_2 by exact Hin. reflexivity. Qed.

(** With the key not in the cache, [upload] suspends on the probe. *)
Lemma run_upload_unseen env hist shasum filename self :
  shasum ∉ seen self ->
  run env hist (upload shasum filename self)
  = match env hist (head_object (bucket self) shasum) with
    | Returned =>
        (seen_add shasum (print (msg_somebody shasum) self), inr tt,
         hist ++ [head_object (bucket self) shasum])
    | Raised (ClientError code) =>
        if String.eqb code "404" then
          let announced := print (msg_uploading shasum filename) self in
          match read_file filename announced with
          | inl e => (announced, inl e, hist ++ [head_object (bucket self) shasum])
          | inr body =>
              let put := put_object (bucket self) shasum body "application/octet-stream" in
              let hist' := (hist ++ [head_object (bucket self) shasum]) ++ [put] in
              match env (hist ++ [head_object (bucket self) shasum]) put with
              | Raised e => (announced, inl e, hist')
              | Returned =>
                  match unlink filename announced with
                  | inl e => (announced, inl e, hist')
                  | inr removed => (seen_add shasum removed, inr tt, hist')
                  end
              end
          end
        else (self, inl (ClientError code), hist ++ [head_object (bucket self) shasum])
    | Raised e => (self, inl e, hist ++ [head_object (bucket self) shasum])
    end.
Proof.
  intros Hnot. unfold upload. rewrite bool_decide_eq_false_2 by exact Hnot.
  cbn [_object_exists_remote yield_from run].
  destruct (env hist (head_object (bucket self) shasum)) as [|e]; [reflexivity|].
  destruct e as [k | m | p | code | n]; try reflexivity.
  destruct (String.eqb code "404"); [|reflexivity].
  cbn [yield_from]. cbv zeta.
  destruct (read_file filename (print (msg_uploading shasum filename) self)) as [e|body];
    [reflexivity|].
  cbn [run bucket print].
  destruct (env _ _) as [|e]; [|reflexivity].
  destruct (unlink filename (print (msg_uploading shasum filename) self)); reflexivity.
Qed.

Lemma read_file_print path line self :
  read_file (PStr path) (print line self) = read_file (PStr path) self.
Proof. reflexivity. Qed.

(** C3: when the probe answers not-found (a [ClientError] with code [404]),
    [upload] makes exactly one put, for the same bucket and key, whose body
    is the whole content of the staged file and whose content type is
    [application/octet-stream].  If the put returns, the file is then
    deleted and the key added to the cache; if the put raises, the error is
    the result, the file is still there and the cache is as before. *)
Theorem upload_not_found env hist self shasum path body :
  shasum ∉ seen self ->
  env hist (head_object (bucket self) shasum) = Raised (ClientError "404") ->
  files self !! path = Some body ->
  let probe := head_object (bucket self) shasum in
  let put := put_object (bucket self) shasum body "application/octet-stream" in
  let announced := print (msg_uploading shasum (PStr path)) self in
  (env (hist ++ [probe]) put = Returned ->
   run env hist (upload shasum (PStr path) self)
   = (seen_add shasum (remove_file path announced), inr tt, hist ++ [probe; put]))
  /\ (forall e,
        env (hist ++ [probe]) put = Raised e ->
        run env hist (upload shasum (PStr path) self)
        = (announced, inl e, hist ++ [probe; put])).
Proof.
  intros Hnot Hprobe Hfile probe put announced.
  assert (Hrun := run_upload_unseen env hist shasum (PStr path) self Hnot).
  rewrite Hprobe in Hrun. cbn [String.eqb Ascii.eqb Bool.eqb] in Hrun. cbv zeta in Hrun.
  rewrite read_file_print in Hrun. unfold read_file in Hrun. rewrite Hfile in Hrun.
  fold probe put announced in Hrun.
  replace ((hist ++ [probe]) ++ [put]) with (hist ++ [probe; put]) in Hrun
    by (rewrite <- app_assoc; reflexivity).
  split.
  - intros Hput. rewrite Hrun, Hput.
    unfold unlink, announced. cbn [files print]. rewrite Hfile. reflexivity.
  - intros e Hput. rewrite Hrun, Hput. reflexivity.
Qed.

Lemma sample_key_unseen : "cowrie/downloads/aaaa" ∉ seen sample_staged.
Proof. apply not_elem_of_empty. Qed.

Lemma upload_not_found_witness :
  run fresh_store [] (upload "cowrie/downloads/aaaa" (PStr "/tmp/x") sample_staged)
  = (State "honeypot-bucket" {[ "cowrie/downloads/aaaa" ]} ∅
       [ "Uploading file with sha cowrie/downloads/aaaa (/tmp/x) to S3" ],
     inr tt,
     [ head_object "honeypot-bucket" "cowrie/downloads/aaaa";
       put_object "honeypot-bucket" "cowrie/downloads/aaaa" sample_body
         "application/octet-stream" ]).
Proof.
  destruct (upload_not_found fresh_store [] sample_staged "cowrie/downloads/aaaa" "/tmp/x"
              sample_body sample_key_unseen eq_refl eq_refl) as [Hok _].
  rewrite (Hok eq_refl).
  unfold seen_add, remove_file, sample_staged, start. cbn [seen bucket files stdout print].
  reflexivity.
Defined.

(** C4: when the probe fails with anything but not-found, [upload] makes no
    put (the probe is the only request), the error is the result its caller
    gets, and the state is untouched: same cache, same files, nothing
    printed. *)
Theorem upload_probe_error env hist self shasum filename e :
  shasum ∉ seen self ->
  env hist (head_object (bucket self) shasum) = Raised e ->
  e <> ClientError "404" ->
  run env hist (upload shasum filename self)
  = (self, inl e, hist ++ [head_object (bucket self) shasum]).
Proof.
  intros Hnot Hprobe Hne.
  rewrite (run_upload_unseen env hist shasum filename self Hnot), Hprobe.
  destruct e as [k | m | p | code | n]; try reflexivity.
  destruct (String.eqb_spec code "404") as [->|_]; [congruence | reflexivity].
Qed.

Lemma upload_probe_error_witness :
  run denying_store [] (upload "cowrie/downloads/aaaa" (PStr "/tmp/x") sample_staged)
  = (sample_staged, inl (ClientError "403"),
     [ head_object "honeypot-bucket" "cowrie/downloads/aaaa" ]).
Proof.
  apply (upload_probe_error denying_store [] sample_staged "cowrie/downloads/aaaa"
           (PStr "/tmp/x") (ClientError "403") sample_key_unseen eq_refl).
  discriminate.
Defined.

(** C6: when the probe finds the key, [upload] makes no put (the probe is
    the only request), prints that somebody else uploaded the file, adds the
    key to the cache and returns; the staged file is not deleted. *)
Theorem upload_found env hist self shasum filename :
  shasum ∉ seen self ->
  env hist (head_object (bucket self) shasum) = Returned ->
  run env hist (upload shasum filename self)
  = (seen_add shasum (print (msg_somebody shasum) self), inr tt,
     hist ++ [head_object (bucket self) shasum])
  /\ files (seen_add shasum (print (msg_somebody shasum) self)) = files self
  /\ shasum ∈ seen (seen_add shasum (print (msg_somebody shasum) self))
  /\ puts (hist ++ [head_object (bucket self) shasum]) = puts hist.
Proof.
  intros Hnot Hprobe.
  rewrite (run_upload_unseen env hist shasum filename self Hnot), Hprobe.
  split; [reflexivity|]. split; [reflexivity|]. split.
  - unfold seen_add. cbn [seen]. set_solver.
  - unfold puts. rewrite List.filter_app. simpl. apply app_nil_r.
Qed.

Lemma upload_found_witness :
  run fresh_store
    [ put_object "honeypot-bucket" "cowrie/downloads/aaaa" sample_body
        "application/octet-stream" ]
    (upload "cowrie/downloads/aaaa" (PStr "/tmp/x") sample_staged)
  = (State "honeypot-bucket" {[ "cowrie/downloads/aaaa" ]} {[ "/tmp/x" := sample_body ]}
       [ "Somebody else already uploaded file with sha cowrie/downloads/aaaa to S3" ],
     inr tt,
     [ put_object "honeypot-bucket" "cowrie/downloads/aaaa" sample_body
         "application/octet-stream";
       head_object "honeypot-bucket" "cowrie/downloads/aaaa" ]).
Proof.
  destruct (upload_found fresh_store
              [ put_object "honeypot-bucket" "cowrie/downloads/aaaa" sample_body
                  "application/octet-stream" ]
              sample_staged "cowrie/downloads/aaaa" (PStr "/tmp/x")
              sample_key_unseen eq_refl) as [Hrun _].
  rewrite Hrun. reflexivity.
Defined.

Lemma read_file_printed filename line self :
  read_file filename (print line self) = read_file filename self.
Proof. destruct filename; reflexivity. Qed.

Lemma unlink_seen filename st st' :
  unlink filename st = inr st' -> seen st' = seen st.
Proof.
  unfold unlink. destruct filename; try discriminate.
  destruct (files st !! s); [|discriminate]. intros [= <-]. reflexivity.
Qed.

(** A call of [upload] that returns normally leaves the key in the cache. *)
Lemma upload_returned_seen env hist shasum filename self st' hist' :
  run env hist (upload shasum filename self) = (st', inr tt, hist') ->
  shasum ∈ seen st'.
Proof.
  destruct (decide (shasum ∈ seen self)) as [Hin | Hnot].
  - rewrite (upload_seen shasum filename self Hin). cbn [run].
    intros [= <- _]. exact Hin.
  - rewrite (run_upload_unseen env hist shasum filename self Hnot).
    destruct (env hist _) as [|e].
    + intros [= <- _]. unfold seen_add. cbn [seen]. set_solver.
    + destruct e as [k | m | p | code | n]; try discriminate.
      destruct (String.eqb code "404"); [|discriminate]. cbv zeta.
      destruct (read_file _ _) as [e|body]; [discriminate|].
      destruct (env _ _) as [|e]; [|discriminate].
      destruct (unlink _ _) as [e|removed]; [discriminate|].
      intros [= <- _]. unfold seen_add. cbn [seen]. set_solver.
Qed.

(** C5: two calls of [upload] for one key, one after the other.  Once the
    first call has returned normally, the second finds the key in the cache:
    it finishes at once, without a suspension and so without a remote call,
    and only prints that the file was already uploaded.  When the first call
    is the one that uploads (key not cached, probe answering not-found), the
    requests of the two calls together are one probe and exactly one put. *)
Theorem upload_twice_one_put env hist self shasum f1 f2 st1 hist1 :
  run env hist (upload shasum f1 self) = (st1, inr tt, hist1) ->
  upload shasum f2 st1 = Fired (print (msg_already shasum) st1) (inr tt)
  /\ run env hist1 (upload shasum f2 st1) = (print (msg_already shasum) st1, inr tt, hist1)
  /\ (shasum ∉ seen self ->
      env hist (head_object (bucket self) shasum) = Raised (ClientError "404") ->
      exists body,
        read_file f1 self = inr body
        /\ hist1 = hist ++ [ head_object (bucket self) shasum;
                            put_object (bucket self) shasum body "application/octet-stream" ]
        /\ puts hist1
           = puts hist ++ [ put_object (bucket self) shasum body "application/octet-stream" ]).
Proof.
  intros Hfirst.
  pose proof (upload_returned_seen _ _ _ _ _ _ _ Hfirst) as Hin.
  pose proof (upload_seen shasum f2 st1 Hin) as Hsecond.
  split; [exact Hsecond|]. split; [rewrite Hsecond; reflexivity|].
  intros Hnot Hprobe.
  rewrite (run_upload_unseen env hist shasum f1 self Hnot), Hprobe in Hfirst.
  cbn [String.eqb Ascii.eqb Bool.eqb] in Hfirst. cbv zeta in Hfirst.
  rewrite read_file_printed in Hfirst.
  destruct (read_file f1 self) as [e|body]; [discriminate|].
  destruct (env _ _) as [|e]; [|discriminate].
  destruct (unlink _ _) as [e|removed]; [discriminate|].
  injection Hfirst as _ <-.
  exists body. split; [reflexivity|].
  rewrite <- app_assoc. split; [reflexivity|].
  unfold puts. rewrite List.filter_app. reflexivity.
Qed.

Lemma upload_twice_one_put_witness :
  exists st1 hist1,
    run fresh_store [] (upload "cowrie/downloads/aaaa" (PStr "/tmp/x") sample_staged)
    = (st1, inr tt, hist1)
    /\ run fresh_store hist1 (upload "cowrie/downloads/aaaa" (PStr "/tmp/x") st1)
       = (print (msg_already "cowrie/downloads/aaaa") st1, inr tt, hist1)
    /\ puts hist1
       = [ put_object "honeypot-bucket" "cowrie/downloads/aaaa" sample_body
             "application/octet-stream" ].
Proof.
  eexists _, _. split; [reflexivity|].
  destruct (upload_twice_one_put fresh_store [] sample_staged "cowrie/downloads/aaaa"
              (PStr "/tmp/x") (PStr "/tmp/x") _ _ eq_refl) as (_ & Hsecond & Hputs).
  split; [exact Hsecond|].
  destruct (Hputs sample_key_unseen eq_refl) as (body & Hbody & _ & _).
  reflexivity.
Defined.

(** ** The dedup cache *)

Lemma except_TypeError_seen e (entry : pydict) self :
  seen (fst (except_TypeError e entry self)) = seen self.
Proof. destruct e; reflexivity. Qed.

(** The body of [write] never touches the cache. *)
Lemma generic_event_seen (entry : pydict) tfname self :
  seen (fst (generic_event entry tfname self)) = seen self.
Proof.
  unfold generic_event.
  destruct (Json.iterencode "," ":" (PDict entry)) as [text [e|]].
  - rewrite except_TypeError_seen. reflexivity.
  - destruct (Json.dumps (PDict entry)) as [e|js].
    + rewrite except_TypeError_seen. reflexivity.
    + destruct (Py.has_key "session" entry); [|reflexivity].
      destruct (Py.getitem "session" entry) as [e|session].
      * rewrite except_TypeError_seen. reflexivity.
      * destruct (Py.truthy session); [|reflexivity].
        destruct (Py.concat "cowrie/events/" session) as [e|k]; [|reflexivity].
        rewrite except_TypeError_seen. reflexivity.
Qed.

Lemma dispatch_seen self (entry : pydict) tfname :
  seen (snd (fst (dispatch self entry tfname))) = seen self.
Proof.
  unfold dispatch.
  destruct (Py.getitem "eventid" entry) as [e|eventid]; [reflexivity|].
  destruct (is_str eventid "cowrie.session.file_download"); [reflexivity|].
  destruct (is_str eventid "cowrie.session.file_upload"); [reflexivity|].
  destruct (strip_legacy (Py.keys entry) entry) as [stripped [e|]]; [reflexivity|].
  pose proof (generic_event_seen stripped tfname self) as Hseen.
  destruct (generic_event stripped tfname self) as [st o]. exact Hseen.
Qed.

(** Between two suspension points [upload] only ever adds to the cache. *)
Lemma upload_cache_grows shasum filename self :
  cache_grows (seen self) (upload shasum filename self).
Proof.
  unfold upload. destruct (bool_decide (shasum ∈ seen self)).
  - constructor. reflexivity.
  - cbn [_object_exists_remote yield_from]. constructor; [reflexivity|].
    intros resp st. destruct resp as [|e].
    + cbn [yield_from]. constructor. unfold seen_add. cbn [seen print]. set_solver.
    + assert (Hfail : forall e', cache_grows (seen st) (Fired (R := unit) st (inl e')))
        by (intros e'; constructor; reflexivity).
      destruct e as [k | m | p | code | n]; try apply Hfail.
      destruct (String.eqb code "404"); [|apply Hfail].
      cbn [yield_from]. cbv zeta.
      destruct (read_file filename _) as [e|body].
      * constructor. reflexivity.
      * constructor; [reflexivity|].
        intros resp st'. destruct resp as [|e]; [|constructor; reflexivity].
        destruct (unlink filename st') as [e|removed] eqn:Hunlink.
        -- constructor. reflexivity.
        -- constructor. unfold seen_add. cbn [seen].
           rewrite (unlink_seen _ _ _ Hunlink). set_solver.
Qed.

(** C9: the dedup cache is empty when the plugin has started and only ever
    grows.  [stop] and the body of [write] leave it alone; the generator of
    [upload], whatever the state it is resumed in, never removes a key; and
    a run of [upload] changes the cache only by adding its own key, either
    when the probe found the key or after the put returned.  In both of these
    places the key is added: for a key that was not cached, the run ends with
    the key in the cache exactly when the probe found it, or the probe
    answered not-found and the put of the staged file returned. *)
Theorem dedup_cache_monotone :
  (forall config_bucket local_files printed,
      seen (start config_bucket local_files printed) = ∅)
  /\ (forall self, seen (stop self) = seen self)
  /\ (forall self (entry : pydict) tfname,
        seen (w_state (write self entry tfname)) = seen self)
  /\ (forall self (entry : pydict) tfname d,
        w_upload (write self entry tfname) = Some d -> cache_grows (seen self) d)
  /\ (forall env hist shasum filename self st' r hist',
        run env hist (upload shasum filename self) = (st', r, hist') ->
        seen self ⊆ seen st'
        /\ (seen st' = seen self
            \/ (seen st' = ({[shasum]} ∪ seen self)
                /\ (shasum ∉ seen self)
                /\ r = inr tt
                /\ (env hist (head_object (bucket self) shasum) = Returned
                    \/ exists body,
                      env hist (head_object (bucket self) shasum)
                      = Raised (ClientError "404")
                      /\ env (hist ++ [head_object (bucket self) shasum])
                           (put_object (bucket self) shasum body
                              "application/octet-stream")
                         = Returned))))
  /\ (forall env hist shasum filename self,
        shasum ∉ seen self ->
        env hist (head_object (bucket self) shasum) = Returned ->
        seen (fst (fst (run env hist (upload shasum filename self))))
        = {[shasum]} ∪ seen self)
  /\ (forall env hist shasum path self st' r hist',
        run env hist (upload shasum (PStr path) self) = (st', r, hist') ->
        shasum ∉ seen self ->
        (shasum ∈ seen st'
         <-> env hist (head_object (bucket self) shasum) = Returned
             \/ exists body,
                 files self !! path = Some body
                 /\ env hist (head_object (bucket self) shasum)
                    = Raised (ClientError "404")
                 /\ env (hist ++ [head_object (bucket self) shasum])
                      (put_object (bucket self) shasum body "application/octet-stream")
                    = Returned)).
Proof.
  split; [reflexivity|]. split; [reflexivity|].
  assert (Hw : forall self (entry : pydict) tfname,
             seen (w_state (write self entry tfname)) = seen self).
  { intros self entry tfname. unfold write.
    pose proof (dispatch_seen self entry tfname) as Hseen.
    destruct (dispatch self entry tfname) as [[entry' st] [k f| |e]]; exact Hseen. }
  split; [exact Hw|]. split; [|split; [|split]].
  - intros self entry tfname d. unfold write.
    pose proof (dispatch_seen self entry tfname) as Hseen.
    destruct (dispatch self entry tfname) as [[entry' st] [k f| |e]];
      cbn [w_upload]; try discriminate.
    intros [= <-]. cbn [fst snd] in Hseen. rewrite <- Hseen. apply upload_cache_grows.
  - intros env hist shasum filename self st' r hist'.
    destruct (decide (shasum ∈ seen self)) as [Hin | Hnot].
    + rewrite (upload_seen shasum filename self Hin). cbn [run].
      intros [= <- _ _]. split; [reflexivity | left; reflexivity].
    + rewrite (run_upload_unseen env hist shasum filename self Hnot).
      destruct (env hist (head_object (bucket self) shasum)) as [|e] eqn:Hprobe.
      * intros [= <- <- _]. unfold seen_add. cbn [seen print].
        split; [apply union_subseteq_r|]. right.
        split; [reflexivity|]. split; [exact Hnot|]. split; [reflexivity|].
        left. reflexivity.
      * assert (Hsame : forall (res : exn + unit) h,
                   (self, res, h) = (st', r, hist') ->
                   seen self ⊆ seen st'
                   /\ (seen st' = seen self
                       \/ (seen st' = ({[shasum]} ∪ seen self)
                           /\ (shasum ∉ seen self)
                           /\ r = inr tt
                           /\ (Raised e = Returned
                               \/ exists body,
                                 Raised e = Raised (ClientError "404")
                                 /\ env (hist ++ [head_object (bucket self) shasum])
                                      (put_object (bucket self) shasum body
                                         "application/octet-stream")
                                    = Returned))))
          by (intros res h [= <- _ _]; split; [reflexivity | left; reflexivity]).
        destruct e as [k | m | p | code | n]; try apply Hsame.
        destruct (String.eqb_spec code "404") as [->|_]; [|apply Hsame].
        cbv zeta. rewrite read_file_printed.
        destruct (read_file filename self) as [e|body];
          [intros [= <- _ _]; split; [reflexivity | left; reflexivity]|].
        destruct (env (hist ++ [head_object (bucket self) shasum]) _) as [|e] eqn:Hput;
          [|intros [= <- _ _]; split; [reflexivity | left; reflexivity]].
        destruct (unlink _ _) as [e|removed] eqn:Hunlink;
          [intros [= <- _ _]; split; [reflexivity | left; reflexivity]|].
        intros [= <- <- _]. apply unlink_seen in Hunlink. unfold seen_add. cbn [seen].
        rewrite Hunlink. cbn [seen print]. split; [apply union_subseteq_r|].
        right. split; [reflexivity|]. split; [exact Hnot|]. split; [reflexivity|].
        right. exists body. split; [reflexivity | exact Hput].
  - intros env hist shasum filename self Hnot Hprobe.
    rewrite (run_upload_unseen env hist shasum filename self Hnot), Hprobe.
    reflexivity.
  - intros env hist shasum path self st' r hist' Hrun Hnot.
    rewrite (run_upload_unseen env hist shasum (PStr path) self Hnot) in Hrun.
    assert (Hadded : forall st, shasum ∈ seen (seen_add shasum st))
      by (intros st; unfold seen_add; cbn [seen];
          apply elem_of_union_l, elem_of_singleton; reflexivity).
    destruct (env hist (head_object (bucket self) shasum)) as [|e] eqn:Hprobe.
    + injection Hrun as <- _ _. split; [intros _; left; reflexivity | intros _; apply Hadded].
    + assert (Hsame : forall (st : state) (res : exn + unit) h,
                 (st, res, h) = (st', r, hist') -> seen st = seen self ->
                 (forall body,
                     files self !! path = Some body ->
                     Raised e = Raised (ClientError "404") ->
                     env (hist ++ [head_object (bucket self) shasum])
                       (put_object (bucket self) shasum body "application/octet-stream")
                     = Returned -> False) ->
                 (shasum ∈ seen st'
                  <-> Raised e = Returned
                      \/ exists body,
                          files self !! path = Some body
                          /\ Raised e = Raised (ClientError "404")
                          /\ env (hist ++ [head_object (bucket self) shasum])
                               (put_object (bucket self) shasum body
                                  "application/octet-stream")
                             = Returned)).
      { intros st res h [= <- _ _] Hseen Hno. split.
        - intros Hin. rewrite Hseen in Hin. contradiction.
        - intros [H | (body & Hfile & H404 & Hput)]; [discriminate|].
          destruct (Hno body Hfile H404 Hput). }
      destruct e as [k | m | p | code | n];
        try (apply (Hsame _ _ _ Hrun eq_refl); intros; discriminate).
      destruct (String.eqb_spec code "404") as [->|Hne];
        [|apply (Hsame _ _ _ Hrun eq_refl); intros; congruence].
      cbv zeta in Hrun. unfold read_file, unlink in Hrun. cbn [files print] in Hrun.
      destruct (files self !! path) as [body|] eqn:Hfile;
        [|apply (Hsame _ _ _ Hrun eq_refl); intros; discriminate].
      destruct (env (hist ++ [head_object (bucket self) shasum]) _) as [|e] eqn:Hput.
      * injection Hrun as <- _ _. split; [|intros _; apply Hadded].
        intros _. right. exists body. split; [reflexivity|]. split; [reflexivity | exact Hput].
      * apply (Hsame _ _ _ Hrun eq_refl). intros body' [= <-] _ Hput'.
        cbn [bucket print] in Hput. rewrite Hput in Hput'. discriminate.
Qed.

Lemma dedup_cache_monotone_witness :
  seen (fst (fst (run fresh_store
                    [ put_object "honeypot-bucket" "cowrie/downloads/aaaa" sample_body
                        "application/octet-stream" ]
                    (upload "cowrie/downloads/aaaa" (PStr "/tmp/x") sample_staged))))
  = {[ "cowrie/downloads/aaaa" ]} ∪ seen sample_staged
  /\ ("cowrie/downloads/aaaa"
      ∈ seen (seen_add "cowrie/downloads/aaaa"
                (remove_file "/tmp/x"
                   (print (msg_uploading "cowrie/downloads/aaaa" (PStr "/tmp/x"))
                      sample_staged)))
      <-> fresh_store [] (head_object (bucket sample_staged) "cowrie/downloads/aaaa")
          = Returned
          \/ exists body,
              files sample_staged !! "/tmp/x" = Some body
              /\ fresh_store [] (head_object (bucket sample_staged) "cowrie/downloads/aaaa")
                 = Raised (ClientError "404")
              /\ fresh_store ([] ++ [head_object (bucket sample_staged) "cowrie/downloads/aaaa"])
                   (put_object (bucket sample_staged) "cowrie/downloads/aaaa" body
                      "application/octet-stream")
                 = Returned).
Proof.
  destruct dedup_cache_monotone as (_ & _ & _ & _ & _ & Hfound & Hexact).
  split.
  - apply Hfound; [exact sample_key_unseen | reflexivity].
  - apply (Hexact fresh_store [] "cowrie/downloads/aaaa" "/tmp/x" sample_staged
             (seen_add "cowrie/downloads/aaaa"
                (remove_file "/tmp/x"
                   (print (msg_uploading "cowrie/downloads/aaaa" (PStr "/tmp/x"))
                      sample_staged)))
             (inr tt)
             [ head_object "honeypot-bucket" "cowrie/downloads/aaaa";
               put_object "honeypot-bucket" "cowrie/downloads/aaaa" sample_body
                 "application/octet-stream" ]);
      [reflexivity | exact sample_key_unseen].
Defined.

(** * Further properties *)

(** ** The probe *)

(** X1: [_object_exists_remote] makes exactly one request, a [head_object]
    on the plugin's bucket and the key, and leaves the state alone.  It
    answers True exactly when the call returned and False exactly when the
    call raised a [ClientError] whose code is the string [404]; every other
    failure, a [ClientError] with another code included, comes out as it
    is. *)
Theorem object_exists_remote_answers env hist shasum self :
  exists result,
    run env hist (_object_exists_remote shasum self)
    = (self, result, hist ++ [head_object (bucket self) shasum])
    /\ (result = inr true <-> env hist (head_object (bucket self) shasum) = Returned)
    /\ (result = inr false
        <-> env hist (head_object (bucket self) shasum) = Raised (ClientError "404"))
    /\ (forall e,
          result = inl e
          <-> env hist (head_object (bucket self) shasum) = Raised e
              /\ e <> ClientError "404").
Proof.
  cbn [_object_exists_remote run].
  destruct (env hist (head_object (bucket self) shasum)) as [|e] eqn:Hprobe;
    [|destruct e as [k | m | p | code | n];
      [| | |destruct (String.eqb_spec code "404") as [->|Hne]|]];
    (eexists; split; [reflexivity|]; split; [|split];
     [ split; congruence
     | split; congruence
     | intros e0; split;
       [ intros H; inversion H; subst; split; congruence
       | intros [H Hother]; inversion H; subst; congruence ] ]).
Qed.

(** ** What a call of [upload] can do *)

Lemma run_upload_seen env hist shasum filename self :
  shasum ∈ seen self ->
  run env hist (upload shasum filename self) = (print (msg_already shasum) self, inr tt, hist).
Proof. intros Hin. rewrite (upload_seen shasum filename self Hin). reflexivity. Qed.

(** X2: whatever the store answers and whatever the file name is, a call
    of [upload] makes no request, or the probe alone, or the probe followed
    by exactly one put; both are for the plugin's bucket and the key of the
    call, and the put has the fixed content type.  A put is never made
    without a probe before it, and with the key in the cache no request is
    made at all.  When the file name is a [str] path, the body of the put is
    the content that file had when the call was made. *)
Theorem upload_requests_shape env hist shasum filename self st' r hist' :
  run env hist (upload shasum filename self) = (st', r, hist') ->
  (hist' = hist
   \/ hist' = hist ++ [head_object (bucket self) shasum]
   \/ exists body,
       hist' = hist ++ [ head_object (bucket self) shasum;
                         put_object (bucket self) shasum body "application/octet-stream" ])
  /\ (shasum ∈ seen self -> hist' = hist)
  /\ (forall path body,
        filename = PStr path ->
        hist' = hist ++ [ head_object (bucket self) shasum;
                          put_object (bucket self) shasum body "application/octet-stream" ] ->
        files self !! path = Some body).
Proof.
  destruct (decide (shasum ∈ seen self)) as [Hin | Hnot].
  - rewrite (run_upload_seen env hist shasum filename self Hin).
    intros [= _ _ <-]. split; [left; reflexivity|]. split; [reflexivity|].
    intros path body _ Habs. exfalso.
    apply (f_equal (@List.length request)) in Habs.
    rewrite List.length_app in Habs. cbn [List.length] in Habs. lia.
  - rewrite (run_upload_unseen env hist shasum filename self Hnot).
    intros Hrun.
    assert (Hprobe_only :
              forall (st : state) (res : exn + unit),
                (st, res, hist ++ [head_object (bucket self) shasum]) = (st', r, hist') ->
                (hist' = hist
                 \/ hist' = hist ++ [head_object (bucket self) shasum]
                 \/ exists body,
                     hist' = hist ++ [ head_object (bucket self) shasum;
                                       put_object (bucket self) shasum body
                                         "application/octet-stream" ])
                /\ (shasum ∈ seen self -> hist' = hist)
                /\ (forall path body,
                      filename = PStr path ->
                      hist' = hist ++ [ head_object (bucket self) shasum;
                                        put_object (bucket self) shasum body
                                          "application/octet-stream" ] ->
                      files self !! path = Some body)).
    { intros st res [= _ _ <-]. split; [right; left; reflexivity|].
      split; [intros Hin; contradiction|].
      intros path body _ Habs. exfalso.
      apply app_inv_head in Habs. discriminate. }
    destruct (env hist (head_object (bucket self) shasum)) as [|e];
      [apply (Hprobe_only _ _ Hrun)|].
    destruct e as [k | m | p | code | n]; try (apply (Hprobe_only _ _ Hrun)).
    destruct (String.eqb code "404"); [|apply (Hprobe_only _ _ Hrun)].
    cbv zeta in Hrun. rewrite read_file_printed in Hrun.
    destruct (read_file filename self) as [e|body] eqn:Hread;
      [apply (Hprobe_only _ _ Hrun)|].
    rewrite <- app_assoc in Hrun. cbn [app] in Hrun.
    assert (Hhist : hist' = hist ++ [ head_object (bucket self) shasum;
                                      put_object (bucket self) shasum body
                                        "application/octet-stream" ]).
    { destruct (env (hist ++ [head_object (bucket self) shasum]) _) as [|e].
      - destruct (unlink _ _); injection Hrun as _ _ <-; reflexivity.
      - injection Hrun as _ _ <-. reflexivity. }
    split; [right; right; exists body; exact Hhist|].
    split; [intros Hin; contradiction|].
    intros path body' -> Hhist'. rewrite Hhist in Hhist'.
    apply app_inv_head in Hhist'. injection Hhist' as <-.
    unfold read_file in Hread. destruct (files self !! path); congruence.
Qed.

Lemma upload_requests_shape_witness :
  ([ head_object "honeypot-bucket" "cowrie/downloads/aaaa";
     put_object "honeypot-bucket" "cowrie/downloads/aaaa" sample_body
       "application/octet-stream" ] = []
   \/ [ head_object "honeypot-bucket" "cowrie/downloads/aaaa";
        put_object "honeypot-bucket" "cowrie/downloads/aaaa" sample_body
          "application/octet-stream" ]
      = [] ++ [ head_object (bucket sample_staged) "cowrie/downloads/aaaa" ]
   \/ exists body,
       [ head_object "honeypot-bucket" "cowrie/downloads/aaaa";
         put_object "honeypot-bucket" "cowrie/downloads/aaaa" sample_body
           "application/octet-stream" ]
       = [] ++ [ head_object (bucket sample_staged) "cowrie/downloads/aaaa";
                 put_object (bucket sample_staged) "cowrie/downloads/aaaa" body
                   "application/octet-stream" ])
  /\ ("cowrie/downloads/aaaa" ∈ seen sample_staged
      -> [ head_object "honeypot-bucket" "cowrie/downloads/aaaa";
           put_object "honeypot-bucket" "cowrie/downloads/aaaa" sample_body
             "application/octet-stream" ] = [])
  /\ (forall path body,
        PStr "/tmp/x" = PStr path ->
        [ head_object "honeypot-bucket" "cowrie/downloads/aaaa";
          put_object "honeypot-bucket" "cowrie/downloads/aaaa" sample_body
            "application/octet-stream" ]
        = [] ++ [ head_object (bucket sample_staged) "cowrie/downloads/aaaa";
                  put_object (bucket sample_staged) "cowrie/downloads/aaaa" body
                    "application/octet-stream" ] ->
        files sample_staged !! path = Some body).
Proof.
  apply (upload_requests_shape fresh_store [] "cowrie/downloads/aaaa" (PStr "/tmp/x")
           sample_staged
           (seen_add "cowrie/downloads/aaaa"
              (remove_file "/tmp/x"
                 (print (msg_uploading "cowrie/downloads/aaaa" (PStr "/tmp/x")) sample_staged)))
           (inr tt)).
  reflexivity.
Defined.

(** X3: a call of [upload] for a file given by a [str] path never creates
    or changes a file and never changes the bucket.  The only thing it can
    do to the file system is to delete that file, and it does so only in a
    call that ends normally with the key in the cache. *)
Theorem upload_files_frame env hist shasum path self st' r hist' :
  run env hist (upload shasum (PStr path) self) = (st', r, hist') ->
  bucket st' = bucket self
  /\ (files st' = files self
      \/ (files st' = delete path (files self)
          /\ r = inr tt
          /\ shasum ∈ seen st')).
Proof.
  destruct (decide (shasum ∈ seen self)) as [Hin | Hnot].
  - rewrite (run_upload_seen env hist shasum (PStr path) self Hin).
    intros [= <- _ _]. split; [reflexivity | left; reflexivity].
  - rewrite (run_upload_unseen env hist shasum (PStr path) self Hnot).
    assert (Hsame : forall (st : state) (res : exn + unit) h,
               bucket st = bucket self -> files st = files self ->
               (st, res, h) = (st', r, hist') ->
               bucket st' = bucket self
               /\ (files st' = files self
                   \/ (files st' = delete path (files self)
                       /\ r = inr tt
                       /\ shasum ∈ seen st')))
      by (intros st res h Hb Hf [= <- _ _]; split; [exact Hb | left; exact Hf]).
    destruct (env hist (head_object (bucket self) shasum)) as [|e];
      [apply Hsame; reflexivity|].
    destruct e as [k | m | p | code | n]; try (apply Hsame; reflexivity).
    destruct (String.eqb code "404"); [|apply Hsame; reflexivity].
    cbv zeta.
    destruct (read_file (PStr path) _) as [e|body]; [apply Hsame; reflexivity|].
    destruct (env (hist ++ [head_object (bucket self) shasum]) _) as [|e];
      [|apply Hsame; reflexivity].
    destruct (unlink (PStr path) _) as [e|removed] eqn:Hunlink; [apply Hsame; reflexivity|].
    intros [= <- <- _]. unfold unlink in Hunlink. cbn [files print] in Hunlink.
    destruct (files self !! path); [|discriminate].
    injection Hunlink as <-. split; [reflexivity|].
    right. repeat split.
    unfold seen_add. cbn [seen]. apply elem_of_union_l, elem_of_singleton. reflexivity.
Qed.

Lemma upload_files_frame_witness :
  bucket (seen_add "cowrie/downloads/aaaa"
            (remove_file "/tmp/x"
               (print (msg_uploading "cowrie/downloads/aaaa" (PStr "/tmp/x")) sample_staged)))
  = bucket sample_staged
  /\ (files (seen_add "cowrie/downloads/aaaa"
               (remove_file "/tmp/x"
                  (print (msg_uploading "cowrie/downloads/aaaa" (PStr "/tmp/x"))
                     sample_staged)))
      = files sample_staged
      \/ (files (seen_add "cowrie/downloads/aaaa"
                   (remove_file "/tmp/x"
                      (print (msg_uploading "cowrie/downloads/aaaa" (PStr "/tmp/x"))
                         sample_staged)))
          = delete "/tmp/x" (files sample_staged)
          /\ @inr exn unit tt = inr tt
          /\ "cowrie/downloads/aaaa"
             ∈ seen (seen_add "cowrie/downloads/aaaa"
                       (remove_file "/tmp/x"
                          (print (msg_uploading "cowrie/downloads/aaaa" (PStr "/tmp/x"))
                             sample_staged))))).
Proof.
  apply (upload_files_frame fresh_store [] "cowrie/downloads/aaaa" "/tmp/x" sample_staged
           (seen_add "cowrie/downloads/aaaa"
              (remove_file "/tmp/x"
                 (print (msg_uploading "cowrie/downloads/aaaa" (PStr "/tmp/x")) sample_staged)))
           (inr tt)
           [ head_object "honeypot-bucket" "cowrie/downloads/aaaa";
             put_object "honeypot-bucket" "cowrie/downloads/aaaa" sample_body
               "application/octet-stream" ]).
  reflexivity.
Defined.

(** X4: when the probe answers not-found and the staged file is not there,
    [upload] fails with [FileNotFoundError] before any put: the probe is the
    only request, the key is not cached, and nothing but the announcement
    has happened. *)
Theorem upload_missing_file env hist self shasum path :
  shasum ∉ seen self ->
  env hist (head_object (bucket self) shasum) = Raised (ClientError "404") ->
  files self !! path = None ->
  run env hist (upload shasum (PStr path) self)
  = (print (msg_uploading shasum (PStr path)) self, inl (FileNotFoundError path),
     hist ++ [head_object (bucket self) shasum]).
Proof.
  intros Hnot Hprobe Hfile.
  rewrite (run_upload_unseen env hist shasum (PStr path) self Hnot), Hprobe.
  cbn [String.eqb Ascii.eqb Bool.eqb]. cbv zeta.
  unfold read_file. cbn [files print]. rewrite Hfile. reflexivity.
Qed.

Lemma upload_missing_file_witness :
  run fresh_store [] (upload "cowrie/downloads/cccc" (PStr "/tmp/gone") sample_staged)
  = (print (msg_uploading "cowrie/downloads/cccc" (PStr "/tmp/gone")) sample_staged,
     inl (FileNotFoundError "/tmp/gone"),
     [] ++ [head_object (bucket sample_staged) "cowrie/downloads/cccc"]).
Proof.
  apply (upload_missing_file fresh_store [] sample_staged "cowrie/downloads/cccc" "/tmp/gone").
  - apply not_elem_of_empty.
  - reflexivity.
  - reflexivity.
Defined.

(** The run of a call that gets as far as the put. *)
Lemma run_upload_put env hist self shasum path body :
  shasum ∉ seen self ->
  env hist (head_object (bucket self) shasum) = Raised (ClientError "404") ->
  files self !! path = Some body ->
  run env hist (upload shasum (PStr path) self)
  = match env (hist ++ [head_object (bucket self) shasum])
            (put_object (bucket self) shasum body "application/octet-stream") with
    | Returned =>
        (seen_add shasum (remove_file path (print (msg_uploading shasum (PStr path)) self)),
         inr tt,
         hist ++ [ head_object (bucket self) shasum;
                   put_object (bucket self) shasum body "application/octet-stream" ])
    | Raised e =>
        (print (msg_uploading shasum (PStr path)) self, inl e,
         hist ++ [ head_object (bucket self) shasum;
                   put_object (bucket self) shasum body "application/octet-stream" ])
    end.
Proof.
  intros Hnot Hprobe Hfile.
  rewrite (run_upload_unseen env hist shasum (PStr path) self Hnot), Hprobe.
  cbn [String.eqb Ascii.eqb Bool.eqb]. cbv zeta.
  unfold read_file, unlink. cbn [files print]. rewrite Hfile.
  rewrite <- app_assoc. reflexivity.
Qed.

(** X5: there is no retry inside a call, and a failed put leaves nothing
    behind that would stop a later one: the key is not cached and the file is
    still there.  The next call for the same key and file goes through the
    whole sequence again, probe and put, and if that put returns the file is
    deleted and the key cached; the content has then been sent twice. *)
Theorem upload_retry_after_failed_put env hist self shasum path body e :
  shasum ∉ seen self ->
  files self !! path = Some body ->
  let probe := head_object (bucket self) shasum in
  let put := put_object (bucket self) shasum body "application/octet-stream" in
  env hist probe = Raised (ClientError "404") ->
  env (hist ++ [probe]) put = Raised e ->
  env (hist ++ [probe; put]) probe = Raised (ClientError "404") ->
  env ((hist ++ [probe; put]) ++ [probe]) put = Returned ->
  exists st1,
    run env hist (upload shasum (PStr path) self) = (st1, inl e, hist ++ [probe; put])
    /\ seen st1 = seen self
    /\ files st1 = files self
    /\ run env (hist ++ [probe; put]) (upload shasum (PStr path) st1)
       = (seen_add shasum (remove_file path (print (msg_uploading shasum (PStr path)) st1)),
          inr tt, (hist ++ [probe; put]) ++ [probe; put]).
Proof.
  intros Hnot Hfile probe put Hprobe1 Hput1 Hprobe2 Hput2.
  exists (print (msg_uploading shasum (PStr path)) self).
  split; [|split; [reflexivity|split; [reflexivity|]]].
  - rewrite (run_upload_put env hist self shasum path body Hnot Hprobe1 Hfile).
    fold probe put. rewrite Hput1. reflexivity.
  - rewrite (run_upload_put env (hist ++ [probe; put])
               (print (msg_uploading shasum (PStr path)) self) shasum path body);
      [| exact Hnot | exact Hprobe2 | exact Hfile].
    cbn [bucket print]. fold probe put. rewrite Hput2. reflexivity.
Qed.

Lemma upload_retry_after_failed_put_witness :
  exists st1,
    run flaky_store [] (upload "cowrie/downloads/aaaa" (PStr "/tmp/x") sample_staged)
    = (st1, inl (OtherError "EndpointConnectionError"),
       [] ++ [ head_object (bucket sample_staged) "cowrie/downloads/aaaa";
               put_object (bucket sample_staged) "cowrie/downloads/aaaa" sample_body
                 "application/octet-stream" ])
    /\ seen st1 = seen sample_staged
    /\ files st1 = files sample_staged.
Proof.
  destruct (upload_retry_after_failed_put flaky_store
              [] sample_staged "cowrie/downloads/aaaa" "/tmp/x" sample_body
              (OtherError "EndpointConnectionError")
              sample_key_unseen eq_refl eq_refl eq_refl eq_refl eq_refl)
    as (st1 & Hfirst & Hseen & Hfiles & _).
  exists st1. split; [exact Hfirst | split; assumption].
Defined.




(** ** Records [write] cannot dispatch *)

Lemma dispatch_file_event self (entry : pydict) tfname eventid :
  Py.getitem "eventid" entry = inr eventid ->
  kind_of eventid <> GenericEvent ->
  dispatch self entry tfname
  = (entry, self,
     file_event (match kind_of eventid with
                 | FileUpload => "cowrie/uploads/"
                 | _ => "cowrie/downloads/"
                 end) entry).
Proof.
  intros Hid Hkind. unfold dispatch. rewrite Hid. unfold kind_of in *.
  destruct (is_str eventid "cowrie.session.file_download"); [reflexivity|].
  destruct (is_str eventid "cowrie.session.file_upload"); [reflexivity|].
  congruence.
Qed.

(** X7: a record without [eventid], or a file record without [shasum] or
    without [outfile], makes [write] raise [KeyError] for the field that is
    missing first; nothing has been done by then: no upload is started and
    the record and the state are untouched. *)
Theorem write_missing_field self (entry : pydict) tfname :
  (Py.has_key "eventid" entry = false ->
   write self entry tfname = Written entry self (Some (KeyError "eventid")) None)
  /\ (forall eventid,
        Py.getitem "eventid" entry = inr eventid ->
        kind_of eventid <> GenericEvent ->
        Py.has_key "shasum" entry = false ->
        write self entry tfname = Written entry self (Some (KeyError "shasum")) None)
  /\ (forall eventid h,
        Py.getitem "eventid" entry = inr eventid ->
        kind_of eventid <> GenericEvent ->
        Py.getitem "shasum" entry = inr (PStr h) ->
        Py.has_key "outfile" entry = false ->
        write self entry tfname = Written entry self (Some (KeyError "outfile")) None).
Proof.
  split; [|split].
  - intros Hmissing. unfold write, dispatch.
    rewrite (getitem_missing _ _ Hmissing). reflexivity.
  - intros eventid Hid Hkind Hmissing. unfold write.
    rewrite (dispatch_file_event self entry tfname eventid Hid Hkind).
    unfold file_event. rewrite (getitem_missing _ _ Hmissing). reflexivity.
  - intros eventid h Hid Hkind Hh Hmissing. unfold write.
    rewrite (dispatch_file_event self entry tfname eventid Hid Hkind).
    unfold file_event. rewrite Hh. cbn [Py.concat].
    rewrite (getitem_missing _ _ Hmissing). reflexivity.
Qed.

Lemma write_missing_field_witness :
  write sample_state [("session", PStr "abc123")] "/tmp/tmpab12"
  = Written [("session", PStr "abc123")] sample_state (Some (KeyError "eventid")) None
  /\ write sample_state
       [("eventid", PStr "cowrie.session.file_download"); ("shasum", PStr "aaaa")]
       "/tmp/tmpab12"
     = Written [("eventid", PStr "cowrie.session.file_download"); ("shasum", PStr "aaaa")]
         sample_state (Some (KeyError "outfile")) None.
Proof.
  split.
  - apply (write_missing_field sample_state [("session", PStr "abc123")] "/tmp/tmpab12").
    reflexivity.
  - apply (write_missing_field sample_state
             [("eventid", PStr "cowrie.session.file_download"); ("shasum", PStr "aaaa")]
             "/tmp/tmpab12")
      with (eventid := PStr "cowrie.session.file_download") (h := "aaaa");
      try reflexivity.
    discriminate.
Defined.

(** X8: the two file branches are outside the [try].  A file record whose
    [shasum] is not a string makes [write] raise the [TypeError] of the
    concatenation; it is not caught, nothing is printed and no upload is
    started. *)
Theorem write_nonstring_shasum self (entry : pydict) tfname eventid v :
  Py.getitem "eventid" entry = inr eventid ->
  kind_of eventid <> GenericEvent ->
  Py.getitem "shasum" entry = inr v ->
  (forall s, v <> PStr s) ->
  write self entry tfname
  = Written entry self
      (Some (TypeError ("can only concatenate str (not " +:+ Py.chr Py.dquote
                        +:+ Py.type_name v +:+ Py.chr Py.dquote +:+ ") to str")))
      None.
Proof.
  intros Hid Hkind Hv Hnot. unfold write.
  rewrite (dispatch_file_event self entry tfname eventid Hid Hkind).
  unfold file_event. rewrite Hv.
  destruct v as [| b | n | s | items | items | t r b]; try reflexivity.
  destruct (Hnot s). reflexivity.
Qed.

Lemma write_nonstring_shasum_witness :
  w_raised (write sample_state
              [("eventid", PStr "cowrie.session.file_upload"); ("shasum", PNone);
               ("outfile", PStr "/tmp/y")] "/tmp/tmpab12")
  = Some (TypeError (String.append "can only concatenate str (not "
                       (String Py.dquote (String.append "NoneType"
                          (String Py.dquote ") to str"))))).
Proof.
  rewrite (write_nonstring_shasum sample_state
             [("eventid", PStr "cowrie.session.file_upload"); ("shasum", PNone);
              ("outfile", PStr "/tmp/y")] "/tmp/tmpab12"
             (PStr "cowrie.session.file_upload") PNone eq_refl).
  - reflexivity.
  - discriminate.
  - reflexivity.
  - discriminate.
Defined.

(** X9: for a file record [write] reads the record and nothing else: when
    it hands over to [upload], or raises, the caller's dict is as it was,
    legacy keys included, no temporary file has been made and nothing has
    been printed. *)
Theorem write_file_event_frame self (entry : pydict) tfname eventid :
  Py.getitem "eventid" entry = inr eventid ->
  kind_of eventid <> GenericEvent ->
  w_entry (write self entry tfname) = entry
  /\ w_state (write self entry tfname) = self.
Proof.
  intros Hid Hkind. unfold write.
  rewrite (dispatch_file_event self entry tfname eventid Hid Hkind).
  destruct (file_event _ entry) as [key f | | e]; split; reflexivity.
Qed.

Lemma write_file_event_frame_witness :
  w_entry (write sample_state
             (sample_download ++ [("time", PStr "2024-01-01T00:00:00")]) "/tmp/tmpab12")
  = sample_download ++ [("time", PStr "2024-01-01T00:00:00")]
  /\ w_state (write sample_state
                (sample_download ++ [("time", PStr "2024-01-01T00:00:00")]) "/tmp/tmpab12")
     = sample_state.
Proof.
  destruct (write_file_event_frame sample_state
              (sample_download ++ [("time", PStr "2024-01-01T00:00:00")]) "/tmp/tmpab12"
              (PStr "cowrie.session.file_download") eq_refl)
    as (Hentry & Hstate).
  - discriminate.
  - split; assumption.
Defined.

(** ** The temporary file of a generic record *)

Lemma generic_kind (entry : pydict) :
  generic entry <->
  exists eventid, Py.getitem "eventid" entry = inr eventid /\ kind_of eventid = GenericEvent.
Proof.
  unfold generic, kind_of. split; intros (eventid & Hid & H).
  - destruct H as [Hd Hu]. exists eventid. rewrite Hd, Hu. auto.
  - exists eventid. split; [exact Hid|].
    destruct (is_str eventid "cowrie.session.file_download"); [discriminate|].
    destruct (is_str eventid "cowrie.session.file_upload"); [discriminate|]. auto.
Qed.

(** X10: a generic record whose session is true but not a string (a number,
    say) serializes well, and its temporary file is written in full; the
    concatenation that builds the key then raises [TypeError] inside the
    [try], so the record is reported as one that cannot be serialized and is
    dropped, and the temporary file stays on disk. *)
Theorem write_nonstring_session self (entry : pydict) tfname v :
  Py.wf entry -> generic entry ->
  Json.serializable (PDict (kept entry)) = true ->
  Py.getitem "session" entry = inr v ->
  Py.truthy v = true ->
  (forall s, v <> PStr s) ->
  write self entry tfname
  = Written (kept entry)
      (print ("s3: error=can only concatenate str (not " +:+ Py.chr Py.dquote
              +:+ Py.type_name v +:+ Py.chr Py.dquote +:+ ") to str")
         (print ("s3: Can't serialize: '" +:+ Py.repr (PDict (kept entry)) +:+ "'")
            (write_file tfname
               (list_byte_of_string (compact_text (kept entry) +:+ newline)) self)))
      None None.
Proof.
  intros Hwf Hgen Hser Hv Htrue Hnot. unfold write.
  rewrite (dispatch_generic self entry tfname Hwf Hgen).
  rewrite (generic_event_serializable _ tfname self Hser). cbv zeta.
  assert (Hk : Py.getitem "session" (kept entry) = inr v)
    by (rewrite getitem_kept; [exact Hv | reflexivity]).
  assert (Hhas : Py.has_key "session" (kept entry) = true)
    by (apply getitem_has_key; eauto).
  rewrite Hhas, Hk, Htrue.
  destruct v as [| b | n | s | items | items | t r b]; try reflexivity.
  destruct (Hnot s). reflexivity.
Qed.

Lemma write_nonstring_session_witness :
  w_upload (write sample_state
              [("eventid", PStr "cowrie.client.size"); ("session", PInt 7)] "/tmp/tmpab12")
  = None
  /\ stdout (w_state (write sample_state
                         [("eventid", PStr "cowrie.client.size"); ("session", PInt 7)]
                         "/tmp/tmpab12"))
     = [ "s3: Can't serialize: '{'eventid': 'cowrie.client.size', 'session': 7}'";
         String.append "s3: error=can only concatenate str (not "
           (String Py.dquote (String.append "int" (String Py.dquote ") to str"))) ].
Proof.
  rewrite (write_nonstring_session sample_state
             [("eventid", PStr "cowrie.client.size"); ("session", PInt 7)] "/tmp/tmpab12"
             (PInt 7)).
  - split; [reflexivity | vm_compute; reflexivity].
  - unfold Py.wf. apply (bool_decide_unpack _). vm_compute. exact I.
  - exists (PStr "cowrie.client.size"). repeat split; reflexivity.
  - reflexivity.
  - reflexivity.
  - reflexivity.
  - discriminate.
Defined.

(** The state the [try] leaves: the temporary file written, and possibly
    lines printed. *)
Lemma generic_event_state (entry : pydict) tfname self :
  exists lines,
    fst (generic_event entry tfname self)
    = State (bucket self) (seen self)
        (<[tfname := list_byte_of_string
                       (if Json.serializable (PDict entry)
                        then compact_text entry +:+ newline
                        else compact_text entry)]> (files self))
        (stdout self ++ lines).
Proof.
  assert (Hcaught : forall e content,
             exists lines,
               fst (except_TypeError e entry (write_file tfname content self))
               = State (bucket self) (seen self) (<[tfname := content]> (files self))
                   (stdout self ++ lines)).
  { intros e content.
    destruct e; cbn [except_TypeError fst];
      try (exists []; unfold write_file; rewrite app_nil_r; reflexivity).
    eexists [_; _]. unfold print, write_file. cbn [bucket seen files stdout].
    rewrite <- app_assoc. reflexivity. }
  assert (Hquiet : forall content,
             exists lines,
               write_file tfname content self
               = State (bucket self) (seen self) (<[tfname := content]> (files self))
                   (stdout self ++ lines))
    by (intros content; exists []; unfold write_file; rewrite app_nil_r; reflexivity).
  destruct (Json.serializable (PDict entry)) eqn:Hser.
  - rewrite (generic_event_serializable entry tfname self Hser). cbv zeta.
    destruct (Py.has_key "session" entry); [|apply Hquiet].
    destruct (Py.getitem "session" entry) as [e|session]; [apply Hcaught|].
    destruct (Py.truthy session); [|apply Hquiet].
    destruct (Py.concat "cowrie/events/" session) as [e|k]; [apply Hcaught | apply Hquiet].
  - destruct (iterencode_unserializable "," ":" _ Hser) as [msg Henc].
    unfold generic_event, compact_text. rewrite Henc. cbn [fst]. apply Hcaught.
Qed.

(** X11: [write] makes the temporary file for every generic record, before
    it knows whether the record will be uploaded: when the body of [write]
    is over the file holds the compact text of the stripped record and a
    newline, or, for a record that cannot be serialized, what the encoder
    had produced before it failed.  No other file is touched. *)
Theorem write_always_stages self (entry : pydict) tfname :
  Py.wf entry -> generic entry ->
  files (w_state (write self entry tfname)) !! tfname
  = Some (list_byte_of_string
            (if Json.serializable (PDict (kept entry))
             then compact_text (kept entry) +:+ newline
             else compact_text (kept entry)))
  /\ (forall path, path <> tfname ->
        files (w_state (write self entry tfname)) !! path = files self !! path).
Proof.
  intros Hwf Hgen.
  assert (Hstate : w_state (write self entry tfname)
                   = fst (generic_event (kept entry) tfname self)).
  { unfold write. rewrite (dispatch_generic self entry tfname Hwf Hgen).
    destruct (snd (generic_event (kept entry) tfname self)); reflexivity. }
  rewrite Hstate.
  destruct (generic_event_state (kept entry) tfname self) as [lines ->].
  cbn [files]. split.
  - apply lookup_insert_eq.
  - intros path Hne. apply lookup_insert_ne. congruence.
Qed.

Lemma write_always_stages_witness :
  files (w_state (write sample_state sample_sessionless "/tmp/tmpab12")) !! "/tmp/tmpab12"
  = Some (list_byte_of_string
            (if Json.serializable (PDict (kept sample_sessionless))
             then compact_text (kept sample_sessionless) +:+ newline
             else compact_text (kept sample_sessionless))).
Proof.
  destruct (write_always_stages sample_state sample_sessionless "/tmp/tmpab12"
              sample_sessionless_wf sample_sessionless_generic) as [Hfile _].
  exact Hfile.
Defined.

(** ** A generic record from [write] to the store *)

(** The record is staged and handed to [upload] under its key. *)
Lemma write_event_call self (entry : pydict) tfname s :
  Py.wf entry -> generic entry ->
  Py.getitem "session" entry = inr (PStr s) -> s <> EmptyString ->
  Json.serializable (PDict (kept entry)) = true ->
  write self entry tfname
  = let staged :=
      write_file tfname (list_byte_of_string (compact_text (kept entry) +:+ newline)) self in
    Written (kept entry) staged None
      (Some (upload (event_key s (kept entry)) (PStr tfname) staged)).
Proof.
  intros Hwf Hgen Hs Hne Hser. unfold write.
  rewrite (dispatch_generic self entry tfname Hwf Hgen).
  rewrite (generic_event_serializable _ tfname self Hser). cbv zeta.
  assert (Hk : Py.getitem "session" (kept entry) = inr (PStr s))
    by (rewrite getitem_kept; [exact Hs | reflexivity]).
  assert (Hhas : Py.has_key "session" (kept entry) = true)
    by (apply getitem_has_key; eauto).
  rewrite Hhas, Hk, (truthy_str s Hne). reflexivity.
Qed.

Lemma settle_event_uploaded env hist self (entry : pydict) tfname s :
  Py.wf entry -> generic entry ->
  Py.getitem "session" entry = inr (PStr s) -> s <> EmptyString ->
  Json.serializable (PDict (kept entry)) = true ->
  files self !! tfname = None ->
  let key := event_key s (kept entry) in
  let body := list_byte_of_string (compact_text (kept entry) +:+ newline) in
  let probe := head_object (bucket self) key in
  let put := put_object (bucket self) key body "application/octet-stream" in
  key ∉ seen self ->
  env hist probe = Raised (ClientError "404") ->
  env (hist ++ [probe]) put = Returned ->
  settle env hist (write self entry tfname)
  = (State (bucket self) ({[key]} ∪ seen self) (files self)
       (stdout self ++ [msg_uploading key (PStr tfname)]),
     hist ++ [probe; put]).
Proof.
  intros Hwf Hgen Hs Hne Hser Hfresh key body probe put Hnot Hprobe Hput.
  rewrite (write_event_call self entry tfname s Hwf Hgen Hs Hne Hser). cbv zeta.
  unfold settle. cbn [w_upload]. fold key body.
  rewrite (run_upload_put env hist (write_file tfname body self) key tfname body);
    [| exact Hnot | exact Hprobe | apply lookup_insert_eq].
  cbn [bucket write_file]. fold probe put. rewrite Hput.
  unfold seen_add, remove_file, print, write_file. cbn [bucket seen files stdout].
  rewrite (delete_insert_id _ _ _ Hfresh). reflexivity.
Qed.

(** X12: a generic record with a session, from [write] to the end of the
    upload it starts, when its key is new to the cache and to the store.
    The requests are the probe and one put whose body is, byte for byte,
    the temporary file: the compact JSON text of the stripped record and a
    newline.  Afterwards the temporary file is gone, so the file system is
    as it was before [write], and the key is cached. *)
Theorem write_event_uploaded env hist self (entry : pydict) tfname s :
  Py.wf entry -> generic entry ->
  Py.getitem "session" entry = inr (PStr s) -> s <> EmptyString ->
  Json.serializable (PDict (kept entry)) = true ->
  files self !! tfname = None ->
  let key := event_key s (kept entry) in
  let body := list_byte_of_string (compact_text (kept entry) +:+ newline) in
  let probe := head_object (bucket self) key in
  let put := put_object (bucket self) key body "application/octet-stream" in
  key ∉ seen self ->
  env hist probe = Raised (ClientError "404") ->
  env (hist ++ [probe]) put = Returned ->
  settle env hist (write self entry tfname)
  = (State (bucket self) ({[key]} ∪ seen self) (files self)
       (stdout self ++ [msg_uploading key (PStr tfname)]),
     hist ++ [probe; put]).
Proof. exact (settle_event_uploaded env hist self entry tfname s). Qed.

Lemma write_event_uploaded_witness :
  settle fresh_store [] (write sample_state sample_event "/tmp/tmpab12")
  = (State (bucket sample_state)
       ({[event_key "abc123" (kept sample_event)]} ∪ seen sample_state)
       (files sample_state)
       (stdout sample_state
          ++ [msg_uploading (event_key "abc123" (kept sample_event)) (PStr "/tmp/tmpab12")]),
     [] ++ [ head_object (bucket sample_state) (event_key "abc123" (kept sample_event));
             put_object (bucket sample_state) (event_key "abc123" (kept sample_event))
               (list_byte_of_string (compact_text (kept sample_event) +:+ newline))
               "application/octet-stream" ]).
Proof.
  apply (write_event_uploaded fresh_store [] sample_state sample_event "/tmp/tmpab12" "abc123").
  - exact sample_event_wf.
  - exact sample_event_generic.
  - reflexivity.
  - discriminate.
  - reflexivity.
  - reflexivity.
  - apply not_elem_of_empty.
  - reflexivity.
  - reflexivity.
Defined.

(** X13: the two short cuts of [upload] leave the temporary file of a
    generic record behind.  When the key of the record is already cached,
    or the probe finds it in the store, no put is made and, once the upload
    is over, the temporary file [write] made is still on disk with its full
    content. *)
Theorem write_event_tempfile_left env hist self (entry : pydict) tfname s :
  Py.wf entry -> generic entry ->
  Py.getitem "session" entry = inr (PStr s) -> s <> EmptyString ->
  Json.serializable (PDict (kept entry)) = true ->
  let key := event_key s (kept entry) in
  (key ∈ seen self \/ env hist (head_object (bucket self) key) = Returned) ->
  files (fst (settle env hist (write self entry tfname))) !! tfname
  = Some (list_byte_of_string (compact_text (kept entry) +:+ newline))
  /\ puts (snd (settle env hist (write self entry tfname))) = puts hist
  /\ key ∈ seen (fst (settle env hist (write self entry tfname))).
Proof.
  intros Hwf Hgen Hs Hne Hser key Hshort.
  rewrite (write_event_call self entry tfname s Hwf Hgen Hs Hne Hser). cbv zeta.
  unfold settle. cbn [w_upload]. fold key.
  destruct (decide (key ∈ seen self)) as [Hin | Hnot].
  - rewrite run_upload_seen by exact Hin. cbn [fst snd files print write_file].
    split; [apply lookup_insert_eq|]. split; [reflexivity | exact Hin].
  - destruct Hshort as [Hin | Hfound]; [contradiction|].
    rewrite run_upload_unseen by exact Hnot. cbn [bucket write_file]. rewrite Hfound.
    cbn [fst snd files print seen_add seen].
    split; [apply lookup_insert_eq|]. split.
    + unfold puts. rewrite List.filter_app. cbn. apply app_nil_r.
    + apply elem_of_union_l, elem_of_singleton. reflexivity.
Qed.

Lemma write_event_tempfile_left_witness :
  files (fst (settle fresh_store
                [ put_object "honeypot-bucket" (event_key "abc123" (kept sample_event))
                    sample_body "application/octet-stream" ]
                (write sample_state sample_event "/tmp/tmpab12"))) !! "/tmp/tmpab12"
  = Some (list_byte_of_string (compact_text (kept sample_event) +:+ newline)).
Proof.
  destruct (write_event_tempfile_left fresh_store
              [ put_object "honeypot-bucket" (event_key "abc123" (kept sample_event))
                  sample_body "application/octet-stream" ]
              sample_state sample_event "/tmp/tmpab12" "abc123"
              sample_event_wf sample_event_generic eq_refl) as [Hfile _].
  - discriminate.
  - reflexivity.
  - right. vm_compute. reflexivity.
  - exact Hfile.
Defined.

(** ** The same record written twice *)

Lemma kept_idem (entry : pydict) : kept (kept entry) = kept entry.
Proof.
  induction entry as [|[k v] entry IH]; [reflexivity|].
  unfold kept in *. cbn [List.filter fst].
  destruct (legacy_key k) eqn:Hk; cbn [negb]; [exact IH|].
  cbn [List.filter fst]. rewrite Hk. cbn [negb]. rewrite IH. reflexivity.
Qed.

Lemma keys_kept_elem key (entry : pydict) :
  key ∈ Py.keys (kept entry) -> key ∈ Py.keys entry.
Proof.
  induction entry as [|[k v] entry IH]; [intros H; exact H|].
  unfold kept. cbn [List.filter fst]. fold (kept entry).
  unfold Py.keys in *. destruct (legacy_key k); cbn [negb map fst].
  - intros H. apply elem_of_cons. right. apply IH, H.
  - rewrite !elem_of_cons. intros [-> | H]; [left; reflexivity | right; apply IH, H].
Qed.

Lemma kept_wf (entry : pydict) : Py.wf entry -> Py.wf (kept entry).
Proof.
  unfold Py.wf. induction entry as [|[k v] entry IH]; [intros H; exact H|].
  unfold kept. cbn [List.filter fst]. fold (kept entry).
  unfold Py.keys in *. cbn [map fst]. rewrite NoDup_cons. intros [Hk Hnd].
  destruct (legacy_key k); cbn [negb map fst]; [apply IH, Hnd|].
  apply NoDup_cons. split; [|apply IH, Hnd].
  intros Hin. apply Hk. apply (keys_kept_elem k entry Hin).
Qed.

Lemma kept_generic (entry : pydict) : generic entry -> generic (kept entry).
Proof.
  intros (eventid & Hid & Hkind). exists eventid. split; [|exact Hkind].
  rewrite getitem_kept; [exact Hid | reflexivity].
Qed.

(** X14: a generic record handed to [write] a second time, as [write] left
    it, once its first upload is over.  The stripped record strips to
    itself, so the second call forms the same key, finds it in the cache and
    makes no request: the event is sent once.  The temporary file of the
    second call stays on disk. *)
Theorem write_event_twice env hist self (entry : pydict) tfname tfname' s :
  Py.wf entry -> generic entry ->
  Py.getitem "session" entry = inr (PStr s) -> s <> EmptyString ->
  Json.serializable (PDict (kept entry)) = true ->
  files self !! tfname = None ->
  let key := event_key s (kept entry) in
  let body := list_byte_of_string (compact_text (kept entry) +:+ newline) in
  let probe := head_object (bucket self) key in
  let put := put_object (bucket self) key body "application/octet-stream" in
  key ∉ seen self ->
  env hist probe = Raised (ClientError "404") ->
  env (hist ++ [probe]) put = Returned ->
  exists st1,
    settle env hist (write self entry tfname) = (st1, hist ++ [probe; put])
    /\ w_entry (write st1 (w_entry (write self entry tfname)) tfname')
       = w_entry (write self entry tfname)
    /\ settle env (hist ++ [probe; put])
         (write st1 (w_entry (write self entry tfname)) tfname')
       = (print (msg_already key) (write_file tfname' body st1), hist ++ [probe; put]).
Proof.
  intros Hwf Hgen Hs Hne Hser Hfresh key body probe put Hnot Hprobe Hput.
  eexists. split;
    [exact (settle_event_uploaded env hist self entry tfname s Hwf Hgen Hs Hne Hser Hfresh
              Hnot Hprobe Hput)|].
  rewrite (write_event_call self entry tfname s Hwf Hgen Hs Hne Hser). cbv zeta.
  cbn [w_entry].
  assert (Hs' : Py.getitem "session" (kept entry) = inr (PStr s))
    by (rewrite getitem_kept; [exact Hs | reflexivity]).
  assert (Hser' : Json.serializable (PDict (kept (kept entry))) = true)
    by (rewrite kept_idem; exact Hser).
  rewrite (write_event_call _ (kept entry) tfname' s
             (kept_wf entry Hwf) (kept_generic entry Hgen) Hs' Hne Hser').
  cbv zeta. rewrite kept_idem. fold key body. cbn [w_entry].
  split; [reflexivity|].
  unfold settle. cbn [w_upload].
  rewrite run_upload_seen; [reflexivity|].
  cbn [seen write_file]. apply elem_of_union_l, elem_of_singleton. reflexivity.
Qed.

Lemma write_event_twice_witness :
  exists st1,
    settle fresh_store [] (write sample_state sample_event "/tmp/tmpab12")
    = (st1,
       [] ++ [ head_object (bucket sample_state) (event_key "abc123" (kept sample_event));
               put_object (bucket sample_state) (event_key "abc123" (kept sample_event))
                 (list_byte_of_string (compact_text (kept sample_event) +:+ newline))
                 "application/octet-stream" ])
    /\ snd (settle fresh_store
              ([] ++ [ head_object (bucket sample_state)
                         (event_key "abc123" (kept sample_event));
                       put_object (bucket sample_state)
                         (event_key "abc123" (kept sample_event))
                         (list_byte_of_string (compact_text (kept sample_event) +:+ newline))
                         "application/octet-stream" ])
              (write st1 (w_entry (write sample_state sample_event "/tmp/tmpab12"))
                 "/tmp/tmpcd34"))
       = [] ++ [ head_object (bucket sample_state) (event_key "abc123" (kept sample_event));
                 put_object (bucket sample_state) (event_key "abc123" (kept sample_event))
                   (list_byte_of_string (compact_text (kept sample_event) +:+ newline))
                   "application/octet-stream" ].
Proof.
  destruct (write_event_twice fresh_store [] sample_state sample_event
              "/tmp/tmpab12" "/tmp/tmpcd34" "abc123"
              sample_event_wf sample_event_generic eq_refl) as (st1 & Hfirst & _ & Hsecond).
  - discriminate.
  - reflexivity.
  - reflexivity.
  - apply not_elem_of_empty.
  - reflexivity.
  - reflexivity.
  - exists st1. split; [exact Hfirst|]. rewrite Hsecond. reflexivity.
Defined.

(** ** The key space *)

Lemma file_event_call prefix (entry : pydict) key f :
  file_event prefix entry = Call key f -> exists h, key = prefix +:+ h.
Proof.
  unfold file_event.
  destruct (Py.getitem "shasum" entry) as [e|v]; [discriminate|].
  destruct v as [| b | n | h | items | items | t r b]; try discriminate.
  cbn [Py.concat].
  destruct (Py.getitem "outfile" entry) as [e|f']; [discriminate|].
  intros [= <- _]. exists h. reflexivity.
Qed.

(** The shape of the key by kind of record. *)
Lemma dispatch_call_key self (entry : pydict) tfname eventid key f :
  Py.getitem "eventid" entry = inr eventid ->
  snd (dispatch self entry tfname) = Call key f ->
  match kind_of eventid with
  | FileDownload => exists h, key = "cowrie/downloads/" +:+ h
  | FileUpload => exists h, key = "cowrie/uploads/" +:+ h
  | GenericEvent => exists s d, key = (("cowrie/events/" +:+ s) +:+ "-") +:+ d
  end.
Proof.
  intros Hid. unfold dispatch, kind_of. rewrite Hid.
  destruct (is_str eventid "cowrie.session.file_download");
    [cbn [snd]; apply file_event_call|].
  destruct (is_str eventid "cowrie.session.file_upload");
    [cbn [snd]; apply file_event_call|].
  destruct (strip_legacy (Py.keys entry) entry) as [stripped [e|]]; [discriminate|].
  pose proof (generic_event_call stripped tfname self key f) as Hcall.
  destruct (generic_event stripped tfname self) as [st o]. cbn [snd] in *.
  intros Ho. destruct (Hcall Ho) as (s & _ & _ & -> & _).
  exists s. eexists. reflexivity.
Qed.

(** X15: the three kinds of record have keys in three disjoint name spaces.
    Two records uploaded under one key are of the same kind, so a download,
    an upload and an event never stand in for one another, in the store or in
    the dedup cache, whatever their hashes and session are. *)
Theorem content_key_kinds self self' (entry entry' : pydict) tfname tfname'
    eventid eventid' key f f' :
  Py.getitem "eventid" entry = inr eventid ->
  Py.getitem "eventid" entry' = inr eventid' ->
  snd (dispatch self entry tfname) = Call key f ->
  snd (dispatch self' entry' tfname') = Call key f' ->
  kind_of eventid = kind_of eventid'.
Proof.
  intros Hid Hid' Hcall Hcall'.
  pose proof (dispatch_call_key self entry tfname eventid key f Hid Hcall) as Hkey.
  pose proof (dispatch_call_key self' entry' tfname' eventid' key f' Hid' Hcall') as Hkey'.
  destruct (kind_of eventid), (kind_of eventid'); try reflexivity;
    repeat match goal with
           | H : exists _, _ |- _ => destruct H
           end;
    subst key;
    match goal with
    | H : _ +:+ _ = _ |- _ => cbv [String.append] in H; discriminate H
    end.
Qed.

Lemma content_key_kinds_witness :
  kind_of (PStr "cowrie.session.file_download") = kind_of (PStr "cowrie.session.file_download").
Proof.
  apply (content_key_kinds sample_state sample_staged sample_download
           (sample_download ++ [("time", PNone)]) "/tmp/tmpab12" "/tmp/tmpcd34"
           (PStr "cowrie.session.file_download") (PStr "cowrie.session.file_download")
           "cowrie/downloads/aaaa" (PStr "/tmp/x") (PStr "/tmp/x"));
    reflexivity.
Defined.

Lemma string_length_append (a b : string) :
  String.length (a +:+ b) = (String.length a + String.length b)%nat.
Proof.
  induction a as [|c a IH]; [reflexivity|].
  change (S (String.length (a +:+ b)) = S (String.length a + String.length b)).
  rewrite IH. reflexivity.
Qed.

(** Two texts that end in parts of the same length. *)
Lemma append_cancel_length (a b c d : string) :
  a +:+ b = c +:+ d -> String.length b = String.length d -> a = c /\ b = d.
Proof.
  revert c. induction a as [|x a IH]; intros [|y c] Heq Hlen.
  - change (b = d) in Heq. auto.
  - exfalso. change (b = String y (c +:+ d)) in Heq. subst b.
    cbn [String.length] in Hlen. rewrite string_length_append in Hlen. lia.
  - exfalso. change (String x (a +:+ b) = d) in Heq. subst d.
    cbn [String.length] in Hlen. rewrite string_length_append in Hlen. lia.
  - change (String x (a +:+ b) = String y (c +:+ d)) in Heq.
    injection Heq as -> Heq. destruct (IH c Heq Hlen) as [-> ->]. auto.
Qed.

Lemma hex_of_length n x : String.length (Sha256.hex_of n x) = n.
Proof. induction n as [|n IH]; cbn [Sha256.hex_of String.length]; congruence. Qed.

Lemma blocks_length fuel (h ws : list Z) :
  List.length h = 8%nat -> List.length (Sha256.blocks fuel h ws) = 8%nat.
Proof.
  revert h ws. induction fuel as [|fuel IH]; intros h ws Hh; cbn [Sha256.blocks].
  - destruct ws; exact Hh.
  - destruct ws as [|w ws]; [exact Hh|]. apply IH. reflexivity.
Qed.

(** A digest is 64 hexadecimal characters. *)
Lemma hexdigest_length msg : String.length (Sha256.hexdigest msg) = 64%nat.
Proof.
  unfold Sha256.hexdigest, Sha256.digest.
  pose proof (blocks_length
                (List.length (Sha256.words_of_bytes
                                (List.length (Sha256.pad (map (fun b => Z.of_N (Byte.to_N b)) msg)))
                                (Sha256.pad (map (fun b => Z.of_N (Byte.to_N b)) msg))))
                Sha256.H0
                (Sha256.words_of_bytes
                   (List.length (Sha256.pad (map (fun b => Z.of_N (Byte.to_N b)) msg)))
                   (Sha256.pad (map (fun b => Z.of_N (Byte.to_N b)) msg)))
                eq_refl) as Hlen.
  cbv zeta.
  destruct (Sha256.blocks _ Sha256.H0 _) as [|w0 [|w1 [|w2 [|w3 [|w4 [|w5 [|w6 [|w7 [|w8 t]]]]]]]]];
    try discriminate.
  cbn [map String.concat]. rewrite !string_length_append, !hex_of_length. reflexivity.
Qed.

(** X16: the key of an event tells its session and its hash apart, although
    both are free text joined by a dash: the digest always has 64
    characters.  Two generic records uploaded under the same key have the
    same session and stripped records with the same SHA-256. *)
Theorem event_key_shared self self' (entry entry' : pydict) tfname tfname' key f f' :
  Py.wf entry -> generic entry -> Py.wf entry' -> generic entry' ->
  snd (dispatch self entry tfname) = Call key f ->
  snd (dispatch self' entry' tfname') = Call key f' ->
  Py.getitem "session" entry = Py.getitem "session" entry'
  /\ Sha256.hexdigest (list_byte_of_string (default_text (kept entry)))
     = Sha256.hexdigest (list_byte_of_string (default_text (kept entry'))).
Proof.
  intros Hwf Hgen Hwf' Hgen' Hcall Hcall'.
  rewrite (dispatch_generic self entry tfname Hwf Hgen) in Hcall.
  rewrite (dispatch_generic self' entry' tfname' Hwf' Hgen') in Hcall'.
  cbn [snd] in Hcall, Hcall'.
  destruct (generic_event_call _ _ _ _ _ Hcall) as (s & Hs & _ & Hkey & _).
  destruct (generic_event_call _ _ _ _ _ Hcall') as (s' & Hs' & _ & Hkey' & _).
  rewrite getitem_kept in Hs, Hs' by reflexivity.
  rewrite Hkey in Hkey'. unfold event_key in Hkey'.
  apply append_cancel_length in Hkey' as [Hprefix Hdigest];
    [|rewrite !hexdigest_length; reflexivity].
  apply append_cancel_length in Hprefix as [Hsession _]; [|reflexivity].
  assert (s = s') by (cbv [String.append] in Hsession; congruence).
  subst s'.
  split; [congruence | exact Hdigest].
Qed.

Lemma event_key_shared_witness :
  Py.getitem "session" sample_event = Py.getitem "session" sample_event_later
  /\ Sha256.hexdigest (list_byte_of_string (default_text (kept sample_event)))
     = Sha256.hexdigest (list_byte_of_string (default_text (kept sample_event_later))).
Proof.
  apply (event_key_shared sample_state sample_state sample_event sample_event_later
           "/tmp/tmpab12" "/tmp/tmpcd34"
           (event_key "abc123" (kept sample_event)) (PStr "/tmp/tmpab12") (PStr "/tmp/tmpcd34")).
  - exact sample_event_wf.
  - exact sample_event_generic.
  - unfold Py.wf. apply (bool_decide_unpack _). vm_compute. exact I.
  - exists (PStr "cowrie.login.success"). repeat split; reflexivity.
  - vm_compute. reflexivity.
  - vm_compute. reflexivity.
Defined.

(** ** Starting the plugin *)

Lemma nonempty_spec (s : string) : nonempty s = true <-> s <> EmptyString.
Proof. destruct s; cbn; split; congruence. Qed.

(** The [try] of [start], by cases. *)
Lemma try_credentials_cases (c : config_answers) :
  (exists access secret,
      get_access_key_id c = inr access /\ access <> EmptyString
      /\ get_secret_access_key c = inr secret /\ secret <> EmptyString
      /\ try_credentials c = inr (Some (access, secret)))
  \/ (try_credentials c = inr None
      /\ exists access,
          get_access_key_id c = inr access
          /\ (access = EmptyString \/ get_secret_access_key c = inr EmptyString))
  \/ (exists e,
        try_credentials c = inl e
        /\ (get_access_key_id c = inl e
            \/ exists access,
                get_access_key_id c = inr access /\ access <> EmptyString
                /\ get_secret_access_key c = inl e)).
Proof.
  unfold try_credentials.
  destruct (get_access_key_id c) as [e|access]; [right; right; eauto|].
  destruct access as [|x access].
  - right. left. split; [reflexivity|]. eauto.
  - cbn [nonempty]. destruct (get_secret_access_key c) as [e|secret].
    + right. right. exists e. split; [reflexivity|]. right.
      eexists. repeat split. discriminate.
    + destruct secret as [|y secret].
      * right. left. split; [reflexivity|]. eauto.
      * left. eexists _, _. repeat split; discriminate.
Qed.

(** X17: when [start] succeeds, the plugin has the configured bucket and an
    empty cache, and static credentials are set on the session exactly when
    both [access_key_id] and [secret_access_key] are configured and
    non-empty.  The line about falling back to botocore's own settings is
    logged exactly when reading one of the two raised [NoOptionError]; an
    empty [access_key_id] gives neither credentials nor that line, and the
    secret is then not even read. *)
Theorem start_client_credentials (c : config_answers) local_files printed st :
  start_client c local_files printed = inr st ->
  (exists b, get_bucket c = inr b /\ s_self st = start b local_files printed)
  /\ seen (s_self st) = ∅
  /\ (forall access secret,
        credentials (s_client st) = Some (access, secret)
        <-> get_access_key_id c = inr access /\ access <> EmptyString
            /\ get_secret_access_key c = inr secret /\ secret <> EmptyString)
  /\ (s_log st = [msg_no_credentials]
      <-> get_access_key_id c = inl NoOptionError
          \/ exists access,
              get_access_key_id c = inr access /\ access <> EmptyString
              /\ get_secret_access_key c = inl NoOptionError)
  /\ (s_log st = [] \/ s_log st = [msg_no_credentials]).
Proof.
  unfold start_client.
  destruct (get_bucket c) as [e|b]; [discriminate|].
  destruct (try_credentials_cases c)
    as [(access & secret & Ha & Hane & Hs & Hsne & ->)
       | [(-> & access & Ha & Hempty) | (e & -> & Hraised)]].
  - destruct (get_region c) as [e|r]; [discriminate|].
    destruct (getboolean_verify c) as [e|v]; [discriminate|].
    intros [= <-]. cbn [s_self s_client s_log credentials].
    split; [eauto|]. split; [reflexivity|]. split; [|split; [|left; reflexivity]].
    + intros a k. split.
      * intros [= <- <-]. auto.
      * intros (Ha' & _ & Hs' & _). congruence.
    + split; [discriminate|]. intros [H | (a & H & _ & H')]; congruence.
  - destruct (get_region c) as [e|r]; [discriminate|].
    destruct (getboolean_verify c) as [e|v]; [discriminate|].
    intros [= <-]. cbn [s_self s_client s_log credentials].
    split; [eauto|]. split; [reflexivity|]. split; [|split; [|left; reflexivity]].
    + intros a k. split; [discriminate|].
      intros (Ha' & Hane & Hs' & Hsne). destruct Hempty as [-> | Hs]; congruence.
    + split; [discriminate|].
      intros [H | (a & H & Hane & H')]; [congruence|].
      destruct Hempty as [-> | Hs]; congruence.
  - destruct e as [|name]; [|discriminate].
    destruct (get_region c) as [e|r]; [discriminate|].
    destruct (getboolean_verify c) as [e|v]; [discriminate|].
    intros [= <-]. cbn [s_self s_client s_log credentials].
    split; [eauto|]. split; [reflexivity|]. split; [|split; [|right; reflexivity]].
    + intros a k. split; [discriminate|].
      intros (Ha' & Hane & Hs' & Hsne).
      destruct Hraised as [H | (a' & H & _ & H')]; congruence.
    + split; [intros _; exact Hraised | reflexivity].
Qed.

Lemma start_client_credentials_witness :
  (forall access secret,
      credentials (Client (Some ("AKIDEXAMPLE", "s3cr3t")) "eu-west-1" None true)
      = Some (access, secret)
      <-> get_access_key_id sample_config_keys = inr access /\ access <> EmptyString
          /\ get_secret_access_key sample_config_keys = inr secret
          /\ secret <> EmptyString)
  /\ ([msg_no_credentials] = [msg_no_credentials]
      <-> get_access_key_id sample_config = inl NoOptionError
          \/ exists access,
              get_access_key_id sample_config = inr access /\ access <> EmptyString
              /\ get_secret_access_key sample_config = inl NoOptionError).
Proof.
  split.
  - apply (start_client_credentials sample_config_keys ∅ []
             (Started (start "honeypot-bucket" ∅ [])
                (Client (Some ("AKIDEXAMPLE", "s3cr3t")) "eu-west-1" None true) [])).
    reflexivity.
  - apply (start_client_credentials sample_config ∅ []
             (Started (start "honeypot-bucket" ∅ [])
                (Client None "eu-west-1" None true) [msg_no_credentials])).
    reflexivity.
Defined.

(** X18: what [start] cannot do without.  When it succeeds, the bucket,
    the region and the verify flag were each read without an exception: the
    plugin holds that bucket, and the client was asked for with that region,
    that verify flag and the endpoint of the configuration.  Reading the
    credentials then raised nothing but [NoOptionError], as far as it went.
    So a missing bucket or region, or any other failure of the
    configuration, is not survived. *)
Theorem start_client_needs_config (c : config_answers) local_files printed st :
  start_client c local_files printed = inr st ->
  (exists b, get_bucket c = inr b /\ bucket (s_self st) = b)
  /\ (exists r, get_region c = inr r /\ region_name (s_client st) = r)
  /\ (exists v, getboolean_verify c = inr v /\ verify (s_client st) = v)
  /\ endpoint_url (s_client st) = get_endpoint c
  /\ (forall name, get_access_key_id c <> inl (ConfigError name))
  /\ (forall access name,
        get_access_key_id c = inr access -> access <> EmptyString ->
        get_secret_access_key c <> inl (ConfigError name)).
Proof.
  unfold start_client. intros Hst.
  destruct (get_bucket c) as [e|b]; [discriminate|].
  destruct (try_credentials_cases c)
    as [(access & secret & Ha & Hane & Hs & Hsne & Htry)
       | [(Htry & access & Ha & Hempty) | (e & Htry & Hraised)]];
    rewrite Htry in Hst;
    try (destruct e as [|name]; [|discriminate]);
    (destruct (get_region c) as [e'|r]; [discriminate|]);
    (destruct (getboolean_verify c) as [e'|v]; [discriminate|]);
    injection Hst as <-; cbn [s_self s_client region_name verify endpoint_url];
    (split; [exists b; split; reflexivity|]);
    (split; [exists r; split; reflexivity|]);
    (split; [exists v; split; reflexivity|]);
    (split; [reflexivity|]).
  - split; [congruence|]. intros a n Ha' _. congruence.
  - split; [congruence|]. intros a n Ha' Hane.
    destruct Hempty as [-> | Hs]; congruence.
  - destruct Hraised as [H | (a & H & _ & H')].
    + split; [congruence|]. intros a n Ha' _. congruence.
    + split; [congruence|]. intros a' n Ha' _. congruence.
Qed.

Lemma start_client_needs_config_witness :
  (exists b, get_bucket sample_config_keys = inr b
             /\ bucket (start "honeypot-bucket" ∅ []) = b)
  /\ (exists r, get_region sample_config_keys = inr r
                /\ region_name (Client (Some ("AKIDEXAMPLE", "s3cr3t")) "eu-west-1" None true)
                   = r)
  /\ (exists v, getboolean_verify sample_config_keys = inr v
                /\ verify (Client (Some ("AKIDEXAMPLE", "s3cr3t")) "eu-west-1" None true) = v)
  /\ endpoint_url (Client (Some ("AKIDEXAMPLE", "s3cr3t")) "eu-west-1" None true)
     = get_endpoint sample_config_keys
  /\ (forall name, get_access_key_id sample_config_keys <> inl (ConfigError name))
  /\ (forall access name,
        get_access_key_id sample_config_keys = inr access -> access <> EmptyString ->
        get_secret_access_key sample_config_keys <> inl (ConfigError name)).
Proof.
  apply (start_client_needs_config sample_config_keys ∅ []
           (Started (start "honeypot-bucket" ∅ [])
              (Client (Some ("AKIDEXAMPLE", "s3cr3t")) "eu-west-1" None true) [])).
  reflexivity.
Defined.

(** ** Failure leaves no trace *)

(** X19: after a run of [upload] the key is in the cache exactly when the
    call returned normally.  A call that failed, at the probe, at opening
    the file, at the put or at deleting the file, has neither cached a key
    nor removed a file: the next call for that key starts from scratch. *)
Theorem upload_cached_iff_returned env hist shasum filename self st' r hist' :
  run env hist (upload shasum filename self) = (st', r, hist') ->
  (shasum ∈ seen st' <-> r = inr tt)
  /\ (forall e, r = inl e -> seen st' = seen self /\ files st' = files self).
Proof.
  intros Hrun. split; [split|].
  - destruct r as [e|[]]; [|reflexivity]. intros Hin. exfalso.
    destruct (decide (shasum ∈ seen self)) as [Hin0 | Hnot].
    + rewrite (run_upload_seen env hist shasum filename self Hin0) in Hrun. discriminate.
    + rewrite (run_upload_unseen env hist shasum filename self Hnot) in Hrun.
      assert (Hfail : forall st (res : exn + unit) h,
                 (st, res, h) = (st', inl e, hist') -> seen st = seen self -> False)
        by (intros st res h [= <- _ _] Hseen; rewrite Hseen in Hin; contradiction).
      destruct (env hist (head_object (bucket self) shasum)) as [|e0]; [discriminate|].
      destruct e0 as [k | m | p | code | n]; try (apply (Hfail _ _ _ Hrun eq_refl)).
      destruct (String.eqb code "404"); [|apply (Hfail _ _ _ Hrun eq_refl)].
      cbv zeta in Hrun.
      destruct (read_file filename _) as [e0|body]; [apply (Hfail _ _ _ Hrun eq_refl)|].
      destruct (env (hist ++ [head_object (bucket self) shasum]) _) as [|e0];
        [|apply (Hfail _ _ _ Hrun eq_refl)].
      destruct (unlink filename _) as [e0|removed];
        [apply (Hfail _ _ _ Hrun eq_refl) | discriminate].
  - intros ->. apply (upload_returned_seen env hist shasum filename self st' hist' Hrun).
  - intros e ->.
    destruct (decide (shasum ∈ seen self)) as [Hin0 | Hnot].
    + rewrite (run_upload_seen env hist shasum filename self Hin0) in Hrun. discriminate.
    + rewrite (run_upload_unseen env hist shasum filename self Hnot) in Hrun.
      assert (Hfail : forall st (res : exn + unit) h,
                 (st, res, h) = (st', inl e, hist') ->
                 seen st = seen self -> files st = files self ->
                 seen st' = seen self /\ files st' = files self)
        by (intros st res h [= <- _ _] Hseen Hfiles; auto).
      destruct (env hist (head_object (bucket self) shasum)) as [|e0]; [discriminate|].
      destruct e0 as [k | m | p | code | n]; try (apply (Hfail _ _ _ Hrun eq_refl eq_refl)).
      destruct (String.eqb code "404"); [|apply (Hfail _ _ _ Hrun eq_refl eq_refl)].
      cbv zeta in Hrun.
      destruct (read_file filename _) as [e0|body];
        [apply (Hfail _ _ _ Hrun eq_refl eq_refl)|].
      destruct (env (hist ++ [head_object (bucket self) shasum]) _) as [|e0];
        [|apply (Hfail _ _ _ Hrun eq_refl eq_refl)].
      destruct (unlink filename _) as [e0|removed];
        [apply (Hfail _ _ _ Hrun eq_refl eq_refl) | discriminate].
Qed.

Lemma upload_cached_iff_returned_witness :
  ("cowrie/downloads/aaaa" ∈ seen sample_staged
   <-> @inl exn unit (ClientError "403") = inr tt)
  /\ (forall e,
        @inl exn unit (ClientError "403") = inl e ->
        seen sample_staged = seen sample_staged /\ files sample_staged = files sample_staged).
Proof.
  apply (upload_cached_iff_returned denying_store [] "cowrie/downloads/aaaa" (PStr "/tmp/x")
           sample_staged sample_staged (inl (ClientError "403"))
           [ head_object "honeypot-bucket" "cowrie/downloads/aaaa" ]).
  reflexivity.
Defined.
